(** * obsidian-list-modified: the tracked-file list and the daily-note splicer

    A shallow embedding of [src/main.ts] (class [ListModified]) and the
    properties of its specification.

    Conventions.
    - A JavaScript string is a [string]; one [ascii] stands for one code unit
      in the range 0..255 (Latin-1).  Code units above 255 are outside the
      model.
    - A JavaScript array is a [list]; arrays that the program mutates in place
      live in a store ([heap]) and are named by their index in it, so that two
      names of one array see each other's updates.
    - An [async] handler wrapped in [serialize] runs from start to end without
      interleaving; it is a function from the state before to an outcome and
      the state after.  A thrown exception is the outcome [Throw].
    - Calls into the host application (notices, vault writes, persistence) are
      recorded in the order they are issued, most recent first. *)

From Stdlib Require Import ZArith Ascii String List Bool Lia.
From stdpp Require Import base option list strings.

Local Open Scope string_scope.
Local Open Scope list_scope.

(** ** JavaScript string primitives *)

Module JS.

(** The rest of [s] after the prefix [pat], when [s] starts with [pat]. *)
Fixpoint stripPrefix (pat s : string) : option string :=
  match pat, s with
  | EmptyString, _ => Some s
  | String a pat', String b s' => if Ascii.eqb a b then stripPrefix pat' s' else None
  | String _ _, EmptyString => None
  end.

(** [s.startsWith(p)] *)
Definition startsWith (s p : string) : bool :=
  match stripPrefix p s with Some _ => true | None => false end.

(** Split [s] at the first occurrence of [pat]: the text before it and the
    text after it. *)
Fixpoint splitFirst (pat s : string) : option (string * string) :=
  match stripPrefix pat s with
  | Some r => Some (EmptyString, r)
  | None =>
      match s with
      | EmptyString => None
      | String c s' =>
          match splitFirst pat s' with
          | Some (a, b) => Some (String c a, b)
          | None => None
          end
      end
  end.

(** [s.includes(pat)] *)
Definition includes (s pat : string) : bool :=
  match splitFirst pat s with Some _ => true | None => false end.

(** The code units matched by [\s] in a regular expression: WhiteSpace and
    LineTerminator, as far as they lie in 0..255. *)
Definition isWhiteSpace (c : ascii) : bool :=
  match N_of_ascii c with
  | 9 | 10 | 11 | 12 | 13 | 32 | 160 => true
  | _ => false
  end%N.

(** [s.replace(/\s/g, "")] *)
Fixpoint removeWhiteSpace (s : string) : string :=
  match s with
  | EmptyString => EmptyString
  | String c s' =>
      if isWhiteSpace c then removeWhiteSpace s' else String c (removeWhiteSpace s')
  end.

(** [s.split(sep)] for a separator of one code unit. *)
Fixpoint split (sep : ascii) (s : string) : list string :=
  match s with
  | EmptyString => [EmptyString]
  | String c s' =>
      if Ascii.eqb c sep then EmptyString :: split sep s'
      else match split sep s' with
           | x :: xs => String c x :: xs
           | [] => [String c EmptyString]
           end
  end.

(** [s.toLowerCase()] on Latin-1 code units: A-Z, and the accented capitals
    192..222 except the multiplication sign 215. *)
Definition lowerChar (c : ascii) : ascii :=
  let n := N_of_ascii c in
  if ((65 <=? n) && (n <=? 90) || (192 <=? n) && (n <=? 222) && negb (n =? 215))%N
  then ascii_of_N (n + 32) else c.

Fixpoint toLowerCase (s : string) : string :=
  match s with
  | EmptyString => EmptyString
  | String c s' => String (lowerChar c) (toLowerCase s')
  end.

(** [GetSubstitution] of ECMAScript for a pattern without capture groups:
    in the replacement text, [$$] is a dollar sign, [$&] the matched text,
    [$`] the text before the match and [$'] the text after it; any other
    character, a lone dollar sign included, stands for itself. *)
Fixpoint getSubstitution (matched before after repl : string) : string :=
  match repl with
  | EmptyString => EmptyString
  | String "$" (String "$" r) => String "$" (getSubstitution matched before after r)
  | String "$" (String "&" r) => matched +:+ getSubstitution matched before after r
  | String "$" (String "`" r) => before +:+ getSubstitution matched before after r
  | String "$" (String "'" r) => after +:+ getSubstitution matched before after r
  | String c r => String c (getSubstitution matched before after r)
  end.

(** [s.replace(pat, repl)] with a string pattern: only the first occurrence
    of [pat] is replaced. *)
Definition replace (s pat repl : string) : string :=
  match splitFirst pat s with
  | None => s
  | Some (a, b) => a +:+ getSubstitution pat a b repl +:+ b
  end.

(** [arr.join(sep)] *)
Definition join (sep : string) (arr : list string) : string := String.concat sep arr.

(** [arr.splice(start, deleteCount, ...items)]: the array after the call. *)
Definition splice {A} (arr : list A) (start deleteCount : Z) (items : list A) : list A :=
  let len := Z.of_nat (length arr) in
  let actualStart := (if start <? 0 then Z.max (len + start) 0 else Z.min start len)%Z in
  let actualDeleteCount := Z.min (Z.max deleteCount 0) (len - actualStart) in
  take (Z.to_nat actualStart) arr ++ items
    ++ drop (Z.to_nat (actualStart + actualDeleteCount)) arr.

(** [arr.includes(x)] on an array of strings (strict equality). *)
Definition arrIncludes (arr : list string) (x : string) : bool :=
  existsb (String.eqb x) arr.

(** [arr.push(x)]: the array after the call. *)
Definition push (arr : list string) (x : string) : list string := arr ++ [x].

(** [arr.remove(x)], which the host adds to [Array.prototype]: every element
    equal to [x] is deleted, the others keep their order. *)
Definition remove (arr : list string) (x : string) : list string :=
  List.filter (fun y => negb (String.eqb y x)) arr.

(** A JavaScript number, as far as the plugin has one: NaN, an integer of
    magnitude up to 2^53 (those a double holds exactly), or a value of larger
    magnitude, of which only the sign is kept: its double, rounded or
    infinite, is not computed. *)
Inductive Num :=
| NaN
| Int (n : Z)
| Huge (negative : bool).

(** The number for a mathematical integer. *)
Definition ofInteger (z : Z) : Num :=
  if (Z.abs z <=? 2 ^ 53)%Z then Int z else Huge (z <? 0)%Z.

(** [a * k] for a positive integer [k] within 2^53. *)
Definition times (a : Num) (k : Z) : Num :=
  match a with
  | NaN => NaN
  | Int n => ofInteger (n * k)
  | Huge negative => Huge negative
  end.

(** [a > 0] *)
Definition isPositive (a : Num) : bool :=
  match a with
  | NaN => false
  | Int n => (0 <? n)%Z
  | Huge negative => negb negative
  end.

(** The value of a digit: 0-9, then a-z or A-Z from ten on. *)
Definition digitValue (c : ascii) : option Z :=
  let n := N_of_ascii c in
  if ((48 <=? n) && (n <=? 57))%N then Some (Z.of_N n - 48)%Z
  else if ((97 <=? n) && (n <=? 122))%N then Some (Z.of_N n - 87)%Z
  else if ((65 <=? n) && (n <=? 90))%N then Some (Z.of_N n - 55)%Z
  else None.

(** A digit of the radix. *)
Definition digitOf (radix : Z) (c : ascii) : option Z :=
  match digitValue c with
  | Some d => if (d <? radix)%Z then Some d else None
  | None => None
  end.

Fixpoint skipWhiteSpace (s : string) : string :=
  match s with
  | String c s' => if isWhiteSpace c then skipWhiteSpace s' else s
  | EmptyString => EmptyString
  end.

(** The longest run of digits of the radix at the start of [s], as an
    integer; [acc] is what was read so far, [None] when nothing was. *)
Fixpoint readDigits (radix : Z) (acc : option Z) (s : string) : option Z :=
  match s with
  | EmptyString => acc
  | String c s' =>
      match digitOf radix c with
      | Some d => readDigits radix (Some (radix * default 0%Z acc + d)%Z) s'
      | None => acc
      end
  end.

(** The sign at the start of the text, and the text after it. *)
Definition readSign (s : string) : bool * string :=
  match s with
  | String "-" r => (true, r)
  | String "+" r => (false, r)
  | _ => (false, s)
  end.

(** The number of a sign and the digits read; no digit gives NaN. *)
Definition ofDigits (negative : bool) (digits : option Z) : Num :=
  match digits with
  | None => NaN
  | Some m => ofInteger (if negative then - m else m)
  end.

(** [parseInt(s, 10)]: leading white space is skipped, then an optional sign
    and the longest run of decimal digits are read. *)
Definition parseInt (s : string) : Num :=
  let (negative, r) := readSign (skipWhiteSpace s) in
  ofDigits negative (readDigits 10 None r).

(** [parseInt(s)] without a radix: as above, but digits after "0x" or "0X"
    are read in base 16. *)
Definition parseIntNoRadix (s : string) : Num :=
  let (negative, r) := readSign (skipWhiteSpace s) in
  match r with
  | String "0" (String "x" r') => ofDigits negative (readDigits 16 None r')
  | String "0" (String "X" r') => ofDigits negative (readDigits 16 None r')
  | _ => ofDigits negative (readDigits 10 None r)
  end.

End JS.

(** ** Data model *)

(** [TFile] of the host: only the fields the plugin reads.  [parent_path] is
    [file.parent.path], [ctime] is [file.stat.ctime]. *)
Record TFile := mkTFile {
  path : string;
  basename : string;
  parent_path : string;
  ctime : Z
}.

(** [TAbstractFile]: the vault events deliver a file or a folder, and the
    handlers test [file instanceof TFile]. *)
Inductive TAbstractFile :=
| AFile (f : TFile)
| AFolder (folderPath : string).

(** [HeadingCache]: the heading text and the lines of [position.start] and
    [position.end]. *)
Record HeadingCache := mkHeading {
  heading_text : string;
  start_line : Z;
  end_line : Z
}.

(** [CachedMetadata]: [tagList] is what [getAllTags(cache)] returns,
    [headings] is [cache.headings], which may be undefined. *)
Record CachedMetadata := mkCache {
  tagList : list string;
  headings : option (list HeadingCache)
}.

(** [ListModifiedSettings]. [trackedFiles] holds a reference to an array in
    the store, not the array itself. *)
Record Settings := mkSettings {
  trackedFiles : nat;
  lastTrackedDate : string;
  heading : string;
  outputFormat : string;
  tags : string;
  excludedFolders : string;
  ignoredNameContains : string;
  automaticallyCreateDailyNote : bool;
  hasBeenBackedUp : bool;
  writeInterval : string
}.

Definition set_trackedFiles (r : nat) (s : Settings) : Settings :=
  mkSettings r (lastTrackedDate s) (heading s) (outputFormat s) (tags s)
    (excludedFolders s) (ignoredNameContains s) (automaticallyCreateDailyNote s)
    (hasBeenBackedUp s) (writeInterval s).

Definition set_lastTrackedDate (d : string) (s : Settings) : Settings :=
  mkSettings (trackedFiles s) d (heading s) (outputFormat s) (tags s)
    (excludedFolders s) (ignoredNameContains s) (automaticallyCreateDailyNote s)
    (hasBeenBackedUp s) (writeInterval s).

Definition set_hasBeenBackedUp (b : bool) (s : Settings) : Settings :=
  mkSettings (trackedFiles s) (lastTrackedDate s) (heading s) (outputFormat s) (tags s)
    (excludedFolders s) (ignoredNameContains s) (automaticallyCreateDailyNote s)
    b (writeInterval s).

Definition set_writeInterval (v : string) (s : Settings) : Settings :=
  mkSettings (trackedFiles s) (lastTrackedDate s) (heading s) (outputFormat s) (tags s)
    (excludedFolders s) (ignoredNameContains s) (automaticallyCreateDailyNote s)
    (hasBeenBackedUp s) v.

(** What [getDailyNote(moment(), getAllDailyNotes())] does: it returns the
    note, returns null when there is none for today, or throws (the daily
    notes folder is missing). *)
Inductive DailyLookup :=
| Found (note : TFile)
| Absent
| Fails (message : string).

(** Exceptions. [TypeError] is a property read on null or undefined;
    [HostError] is an error thrown by the daily-notes helper. *)
Inductive Exn :=
| TypeError
| HostError (message : string).

(** Calls into the host that change something outside the plugin.
    [SetInterval] is [window.setInterval(callback, milliseconds)]; the
    callback of [onload] only logs a line. *)
Inductive HostCall :=
| SaveData
| ShowNotice (message : string)
| ConsoleLog (message : string)
| VaultCopy (source destination : string)
| VaultModify (file content : string)
| CreateDailyNote
| SetInterval (milliseconds : JS.Num).

(** The part of the host the plugin only reads during one handler run. *)
Record Host := mkHost {
  (** [moment().format("YYYY-MM-DD")] *)
  currentDate : string;
  (** [getDailyNoteSettings().folder] *)
  dailyNoteFolder : string;
  (** [moment().format(getDailyNoteSettings().format)] *)
  dailyNoteStamp : string;
  (** what [createDailyNote(moment())] resolves to; undefined when the
      helper could not create the file *)
  createdDailyNote : option TFile;
  (** [app.vault.getAbstractFileByPath(path)], read as a [TFile] *)
  getAbstractFileByPath : string -> option TFile;
  (** [app.metadataCache.getFileCache(file)], typed [CachedMetadata] at its
      uses *)
  getFileCache : TFile -> CachedMetadata;
  (** [app.vault.read(file)] *)
  vaultRead : TFile -> string;
  (** [app.fileManager.generateMarkdownLink(file, sourcePath)] *)
  generateMarkdownLink : TFile -> string -> string;
  (** [moment(ctime).format("YYYY-MM-DD")] *)
  formatDate : Z -> string
}.

(** The state a handler runs in: the settings object, the store of arrays,
    what the daily-note lookup currently answers, and the host calls issued
    so far (most recent first). *)
Record World := mkWorld {
  settings : Settings;
  heap : list (list string);
  daily : DailyLookup;
  calls : list HostCall
}.

(** The array a reference names; a dangling reference reads as empty. *)
Definition deref (h : list (list string)) (r : nat) : list string :=
  default [] (h !! r).

(** The tracked set: the array [settings.trackedFiles] refers to. *)
Definition tracked (w : World) : list string :=
  deref (heap w) (trackedFiles (settings w)).

(** Every reference in use names an array of the store. *)
Definition wf (w : World) : Prop := trackedFiles (settings w) < length (heap w).

(** ** Handlers as state transformers with exceptions *)

Inductive Outcome (A : Type) :=
| Return (a : A)
| Throw (e : Exn).
Arguments Return {A} a.
Arguments Throw {A} e.

Definition M (A : Type) : Type := World -> Outcome A * World.

#[export] Instance M_ret : MRet M := fun A a w => (Return a, w).
#[export] Instance M_bind : MBind M := fun A B f m w =>
  match m w with
  | (Return a, w') => f a w'
  | (Throw e, w') => (Throw e, w')
  end.

Definition throw {A} (e : Exn) : M A := fun w => (Throw e, w).
Definition getSettings : M Settings := fun w => (Return (settings w), w).
Definition modifySettings (f : Settings -> Settings) : M unit :=
  fun w => (Return tt, mkWorld (f (settings w)) (heap w) (daily w) (calls w)).
Definition readArray (r : nat) : M (list string) :=
  fun w => (Return (deref (heap w) r), w).
Definition writeArray (r : nat) (arr : list string) : M unit :=
  fun w => (Return tt, mkWorld (settings w) (<[r := arr]> (heap w)) (daily w) (calls w)).
(** A new array object: [[]] *)
Definition newArray (arr : list string) : M nat :=
  fun w => (Return (length (heap w)),
            mkWorld (settings w) (heap w ++ [arr]) (daily w) (calls w)).
Definition call (c : HostCall) : M unit :=
  fun w => (Return tt, mkWorld (settings w) (heap w) (daily w) (c :: calls w)).
Definition getDaily : M DailyLookup := fun w => (Return (daily w), w).
Definition putDaily (d : DailyLookup) : M unit :=
  fun w => (Return tt, mkWorld (settings w) (heap w) d (calls w)).

(** ** The plugin *)

Section Plugin.

Variable host : Host.

(** [displayNotice(message)] *)
Definition displayNotice (message : string) : M unit :=
  call (ShowNotice ("[Obsidian List Modified] " +:+ message)).

(** [saveSettings()] *)
Definition saveSettings : M unit := call SaveData.

(** [getDailyNote(moment(), getAllDailyNotes())] outside a [try]: the note
    or null, or the exception. *)
Definition getDailyNote : M (option TFile) :=
  d ← getDaily;
  match d with
  | Found f => mret (Some f)
  | Absent => mret None
  | Fails msg => throw (HostError msg)
  end.

(** *** Filter engine *)

(** [noteTitleContainsIgnoredText(noteTitle)] *)
Definition noteTitleContainsIgnoredText (s : Settings) (noteTitle : string) : bool :=
  let ignoredText := JS.split "," (JS.removeWhiteSpace (ignoredNameContains s)) in
  existsb (fun ignoredText =>
             JS.includes (JS.toLowerCase noteTitle) (JS.toLowerCase ignoredText))
          ignoredText.

(** [cacheContainsIgnoredTag(cache)] *)
Definition cacheContainsIgnoredTag (s : Settings) (cache : CachedMetadata) : bool :=
  let currentFileTags := tagList cache in
  let ignoredTags := JS.split "," (JS.removeWhiteSpace (tags s)) in
  existsb (fun ignoredTag => JS.arrIncludes currentFileTags ignoredTag) ignoredTags.

(** [s.replace(/\s*, | \s*,/, ",")]: the leftmost match of "white space,
    comma, space" or "space, white space, comma" becomes a comma.  A run
    matched by [\s*] before a comma is always the longest one, since a
    shorter run is followed by white space and not by the comma. *)
Definition matchCommaSpace (s : string) : option string :=
  match JS.skipWhiteSpace s with
  | String "," (String " " r) => Some r
  | _ => None
  end.

Definition matchSpaceComma (s : string) : option string :=
  match s with
  | String " " r =>
      match JS.skipWhiteSpace r with
      | String "," r' => Some r'
      | _ => None
      end
  | _ => None
  end.

Fixpoint replaceFirstSeparator (s : string) : string :=
  match matchCommaSpace s with
  | Some r => String "," r
  | None =>
      match matchSpaceComma s with
      | Some r => String "," r
      | None =>
          match s with
          | EmptyString => EmptyString
          | String c s' => String c (replaceFirstSeparator s')
          end
      end
  end.

(** [item.replace(/^\/|\/$/g, "")]: a slash at the start and a slash at the
    end are deleted. *)
Fixpoint stripTrailingSlash (s : string) : string :=
  match s with
  | EmptyString => EmptyString
  | String "/" EmptyString => EmptyString
  | String c s' => String c (stripTrailingSlash s')
  end.

Definition stripSlashes (item : string) : string :=
  match item with
  | String "/" r => stripTrailingSlash r
  | _ => stripTrailingSlash item
  end.

(** [pathIsExcluded(path)] *)
Definition pathIsExcluded (s : Settings) (path : string) : M bool :=
  let excludedFolders := excludedFolders s in
  if String.eqb excludedFolders EmptyString then mret false
  else
    let excludedFolderPaths :=
      map stripSlashes (JS.split "," (replaceFirstSeparator excludedFolders)) in
    match getAbstractFileByPath host path with
    | None => throw TypeError
    | Some f =>
        let currentFilePath := parent_path f in
        mret (existsb (fun excludedFolder => JS.startsWith currentFilePath excludedFolder)
                      excludedFolderPaths)
    end.

(** *** Output formatter *)

(** [getFormattedOutput(path)].  The arguments of the first [replace] are
    evaluated before any text is replaced: the daily note is looked up again
    and its [path] is read, then the link is generated from [file], which is
    null when [path] names no file. *)
Definition getFormattedOutput (path0 : string) : M string :=
  s ← getSettings;
  let file := getAbstractFileByPath host path0 in
  note ← getDailyNote;
  match note with
  | None => throw TypeError
  | Some note =>
      match file with
      | None => throw TypeError
      | Some file =>
          let link := generateMarkdownLink host file (path note) in
          let tagText :=
            JS.join ", " (map (fun tag => "\" +:+ tag) (tagList (getFileCache host file))) in
          mret (JS.replace
                  (JS.replace
                     (JS.replace
                        (JS.replace (outputFormat s) "[[link]]" link)
                        "[[name]]" (basename file))
                     "[[tags]]" tagText)
                  "[[ctime]]" (formatDate host (ctime file)))
      end
  end.

(** [arr.map(f)] for a callback that may throw: the elements are rendered in
    order and the first exception ends the call. *)
Fixpoint mapM {A B} (f : A -> M B) (l : list A) : M (list B) :=
  match l with
  | [] => mret []
  | x :: l' => y ← f x; ys ← mapM f l'; mret (y :: ys)
  end.

(** *** Document splicer *)

(** The loop over [headings] of [updateTrackedFiles]: the first heading whose
    text is the configured one decides [startPos] and [endPos], from the
    heading after it when there is one and from the length of the document
    otherwise. *)
Fixpoint findManagedRegion (headings : list HeadingCache) (heading0 : string)
    (contentLength : Z) : option (Z * Z) :=
  match headings with
  | [] => None
  | h :: rest =>
      if String.eqb (heading_text h) heading0 then
        let startPos := (end_line h + 1)%Z in
        match rest with
        | next :: _ =>
            let endPos := (start_line next - 1)%Z in
            Some (startPos, endPos)
        | [] =>
            let endPos := contentLength in
            Some (startPos, endPos)
        end
      else findManagedRegion rest heading0 contentLength
  end.

(** What the loop does to the lines of the document, given the rendered
    entries: [content.splice(startPos, endPos - startPos, ...entries)]. *)
Definition spliceManagedRegion (content : list string) (headings : list HeadingCache)
    (heading0 : string) (entries : list string) : option (list string) :=
  match findManagedRegion headings heading0 (Z.of_nat (length content)) with
  | Some (startPos, endPos) => Some (JS.splice content startPos (endPos - startPos) entries)
  | None => None
  end.

Definition newline : ascii := ascii_of_nat 10.

(** *** Orchestrator *)

(** [createDailyNote(moment())]; afterwards the lookup finds the new note. *)
Definition createDailyNote : M (option TFile) :=
  call CreateDailyNote;;
  match createdDailyNote host with
  | Some f => putDaily (Found f);; mret (Some f)
  | None => mret None
  end.

Definition backupPath : string :=
  dailyNoteFolder host +:+ dailyNoteStamp host +:+ "-BACKUP.md".

Definition backupNotice : string :=
  "Your daily note for today has been backed up to " +:+ backupPath +:+ ". "
  +:+ "This is for users who have migrated to OLM 2.0 so that their daily "
  +:+ "note content is not lost. Feel free to delete the backup file or port its content "
  +:+ "to the new one. This message will not be shown to you again. "
  +:+ "This is a one-time process. If you were not a 1.0 user, disregard this.".

(** [updateTrackedFiles()], lines 168-177: the lookup inside [try]; when it
    throws, [dailyNote] stays undefined. *)
Definition resolveDailyNote : M (option TFile) :=
  d ← getDaily;
  match d with
  | Found note => mret (Some note)
  | Absent => mret None
  | Fails message =>
      displayNotice "Unable to load daily note. See console for details.";;
      call (ConsoleLog message);;
      mret None
  end.

(** Lines 179-198: the backup made once, for the migration from 1.0. *)
Definition backupOnce (dailyNote : option TFile) : M unit :=
  s ← getSettings;
  match dailyNote with
  | Some note =>
      if negb (hasBeenBackedUp s) then
        displayNotice backupNotice;;
        call (VaultCopy (path note) backupPath);;
        modifySettings (set_hasBeenBackedUp true);;
        saveSettings
      else mret tt
  | None => mret tt
  end.

(** Lines 200-203: the daily note is created when it is missing and the
    setting asks for it. *)
Definition createIfMissing (dailyNote : option TFile) : M (option TFile) :=
  s ← getSettings;
  match dailyNote with
  | None =>
      if automaticallyCreateDailyNote s then
        displayNotice "Creating daily note since it did not exist...";;
        createDailyNote
      else mret None
  | Some note => mret (Some note)
  end.

(** The two notices of the splicer. *)
Definition noHeadingsNotice : string :=
  "Cannot create list. Please read the Obsidian List Modified 'Headings' settings.".
Definition headingNotFoundNotice : string :=
  "Cannot create list. Please read the Obsidian List Modified settings.".

(** Lines 205-253: the list is rendered into the daily note. *)
Definition renderInto (note : TFile) : M unit :=
  let cache := getFileCache host note in
  let content := JS.split newline (vaultRead host note) in
  s ← getSettings;
  match headings cache with
  | None => displayNotice noHeadingsNotice
  | Some hs =>
      if String.eqb (heading s) EmptyString then displayNotice noHeadingsNotice
      else
        match findManagedRegion hs (heading s) (Z.of_nat (length content)) with
        | Some (startPos, endPos) =>
            paths ← readArray (trackedFiles s);
            entries ← mapM getFormattedOutput paths;
            call (VaultModify (path note)
                    (JS.join (String newline EmptyString)
                       (JS.splice content startPos (endPos - startPos) entries)))
        | None => displayNotice headingNotFoundNotice
        end
  end.

(** [updateTrackedFiles()] *)
Definition updateTrackedFiles : M unit :=
  saveSettings;;
  dailyNote ← resolveDailyNote;
  backupOnce dailyNote;;
  dailyNote ← createIfMissing dailyNote;
  match dailyNote with
  | Some note => renderInto note
  | None => mret tt
  end.

(** *** Tracked-set manager *)

(** [file === note]: the host keeps one [TFile] object per path. *)
Definition sameFile (file : TFile) (note : option TFile) : bool :=
  match note with
  | Some n => String.eqb (path file) (path n)
  | None => false
  end.

(** [onCacheChange], lines 71-74: the daily rollover.  A new, empty array is
    stored in the settings. *)
Definition rollover (currentDate0 : string) : M unit :=
  s ← getSettings;
  if negb (String.eqb (lastTrackedDate s) currentDate0) then
    r ← newArray [];
    modifySettings (set_trackedFiles r);;
    modifySettings (set_lastTrackedDate currentDate0)
  else mret tt.

(** [onCacheChange], lines 82-99: the membership update, on the array that
    the local [trackedFiles] names.  [&&] and [||] stop at the first operand
    that decides them, so [pathIsExcluded] is not always called. *)
Definition updateMembership (trackedFiles0 : nat) (file : TFile) (cache : CachedMetadata)
    : M unit :=
  let path0 := path file in
  s ← getSettings;
  arr ← readArray trackedFiles0;
  add ← (if JS.arrIncludes arr path0 then mret false
         else if cacheContainsIgnoredTag s cache then mret false
         else excluded ← pathIsExcluded s path0;
              if excluded : bool then mret false
              else mret (negb (noteTitleContainsIgnoredText s (basename file))));
  (if add : bool then writeArray trackedFiles0 (JS.push arr path0) else mret tt);;
  arr ← readArray trackedFiles0;
  del ← (if JS.arrIncludes arr path0 && cacheContainsIgnoredTag s cache then mret true
         else excluded ← pathIsExcluded s path0;
              if excluded : bool then mret true
              else mret (noteTitleContainsIgnoredText s (basename file)));
  (if del : bool then writeArray trackedFiles0 (JS.remove arr path0) else mret tt).

(** [onCacheChange(file, _data, cache)].  The local [trackedFiles] is read
    from the settings before the rollover and keeps naming that array. *)
Definition onCacheChange (file : TFile) (cache : CachedMetadata) : M unit :=
  s ← getSettings;
  let trackedFiles0 := trackedFiles s in
  let currentDate0 := currentDate host in
  rollover currentDate0;;
  note ← getDailyNote;
  if sameFile file note then mret tt
  else
    updateMembership trackedFiles0 file cache;;
    updateTrackedFiles.

(** [onVaultDelete(file)] *)
Definition onVaultDelete (file : TAbstractFile) : M unit :=
  match file with
  | AFile f =>
      s ← getSettings;
      arr ← readArray (trackedFiles s);
      if JS.arrIncludes arr (path f) then
        writeArray (trackedFiles s) (JS.remove arr (path f));;
        updateTrackedFiles
      else mret tt
  | AFolder _ => mret tt
  end.

(** [onVaultRename(file, oldPath)] *)
Definition onVaultRename (file : TAbstractFile) (oldPath : string) : M unit :=
  match file with
  | AFile f =>
      s ← getSettings;
      arr ← readArray (trackedFiles s);
      if JS.arrIncludes arr oldPath then
        writeArray (trackedFiles s) (JS.remove arr oldPath);;
        arr ← readArray (trackedFiles s);
        writeArray (trackedFiles s) (JS.push arr (path f));;
        saveSettings;;
        if negb (JS.includes (outputFormat s) "[[link]]") then updateTrackedFiles
        else mret tt
      else mret tt
  | AFolder _ => mret tt
  end.

(** *** Start-up: the write interval *)

(** [DEFAULT_SETTINGS.writeInterval], declared in [./settings]. *)
Variable DEFAULT_SETTINGS_writeInterval : string.

(** [schema.parse(value)]: the value goes through [parseInt(a, 10)] and must
    then be a number (NaN is refused) that is positive. *)
Definition schemaParse (value : string) : option JS.Num :=
  let n := JS.parseInt value in
  if JS.isPositive n then Some n else None.

(** The part of [onload()] between [loadSettings] and the event
    registrations: the interval is validated and the timer is set.  The
    default is read by [parseInt] without a radix. *)
Definition onload : M unit :=
  s ← getSettings;
  let defaultWriteInterval := DEFAULT_SETTINGS_writeInterval in
  let writeIntervalSec := JS.parseIntNoRadix defaultWriteInterval in
  writeIntervalSec ← match schemaParse (writeInterval s) with
                     | Some n => mret n
                     | None =>
                         displayNotice ("Invalid write interval. Defaulting to "
                                        +:+ defaultWriteInterval +:+ " seconds.");;
                         mret writeIntervalSec
                     end;
  call (SetInterval (JS.times writeIntervalSec 1000)).

(** The note a run of [updateTrackedFiles] works on: the one the lookup
    finds, or else the one created when creation is switched on. *)
Definition resolvedNote (w : World) : option TFile :=
  match daily w with
  | Found note => Some note
  | Absent | Fails _ =>
      if automaticallyCreateDailyNote (settings w) then createdDailyNote host else None
  end.

(** The calls [updateTrackedFiles] issues for the backup: none, unless the
    lookup finds the note and the flag is not set yet. *)
Definition backupCalls (w : World) : list HostCall :=
  match daily w with
  | Found note =>
      if hasBeenBackedUp (settings w) then []
      else [VaultCopy (path note) backupPath]
  | Absent | Fails _ => []
  end.

(** The lookup of the daily note lets a change of [file] pass: it does not
    throw, and the note it finds, if any, is not [file]. *)
Definition lookupLetsPass (w : World) (file : TFile) : Prop :=
  match daily w with
  | Found note => path file <> path note
  | Absent => True
  | Fails _ => False
  end.

(** The premises under which [onCacheChange] gets as far as its membership
    update: the lookup of the daily note answers, the changed file is not the
    daily note, and the changed file is in the vault. *)
Definition membershipUpdateRuns (w : World) (file : TFile) : Prop :=
  match daily w with
  | Found note => path file <> path note
  | Absent => True
  | Fails _ => False
  end /\ is_Some (getAbstractFileByPath host (path file)).

End Plugin.

(** ** Events

    The notifications the plugin subscribes to in [onload], and a direct run
    of [updateTrackedFiles]. *)
Inductive Event :=
| CacheChanged (file : TFile) (cache : CachedMetadata)
| VaultDeleted (file : TAbstractFile)
| VaultRenamed (file : TAbstractFile) (oldPath : string)
| Refresh.

Definition handle (host : Host) (e : Event) : M unit :=
  match e with
  | CacheChanged file cache => onCacheChange host file cache
  | VaultDeleted file => onVaultDelete host file
  | VaultRenamed file oldPath => onVaultRename host file oldPath
  | Refresh => updateTrackedFiles host
  end.

(** The handlers are serialized: each event is handled to its end, in the
    state the one before left, whether that one returned or threw.  Each
    event comes with the host as it is at that time. *)
Fixpoint runEvents (es : list (Host * Event)) (w : World) : World :=
  match es with
  | [] => w
  | (host, e) :: es' => runEvents es' (handle host e w).2
  end.

(** ** Observations on the recorded host calls *)

(** The document writes: [vault.modify(file, content)]. *)
Definition writes (cs : list HostCall) : list (string * string) :=
  omap (fun c => match c with VaultModify f content => Some (f, content) | _ => None end) cs.

(** The calls that create a file: [vault.copy] and [createDailyNote]. *)
Definition creations (cs : list HostCall) : list HostCall :=
  List.filter (fun c => match c with VaultCopy _ _ | CreateDailyNote => true | _ => false end) cs.

(** ** The replacement of a first occurrence, as a relation

    [FirstReplaced pat repl s t]: [t] is [s] when [pat] does not occur in
    [s]; otherwise [s] is cut at the leftmost occurrence of [pat], and [t]
    has the substitution of [repl] in its place, the text before and after
    it unchanged. *)
Inductive FirstReplaced (pat repl s : string) : string -> Prop :=
| FR_absent :
    (forall a b, s <> a +:+ pat +:+ b) ->
    FirstReplaced pat repl s s
| FR_first a b :
    s = a +:+ pat +:+ b ->
    (forall a' b', s = a' +:+ pat +:+ b' -> String.length a <= String.length a') ->
    FirstReplaced pat repl s (a +:+ JS.getSubstitution pat a b repl +:+ b).

(** ** Relations a computation keeps

    [keeps R m]: whatever [m] returns or throws, the state after it is
    related by [R] to the state before it. *)
Definition keeps (R : World -> World -> Prop) {A} (m : M A) : Prop :=
  forall w, R w (m w).2.

(** The tracked set is the same array object with the same elements. *)
Definition sameTracking (w w' : World) : Prop :=
  heap w' = heap w /\ trackedFiles (settings w') = trackedFiles (settings w).

(** The backup calls: the pairs of [vault.copy(source, destination)]. *)
Definition copies (cs : list HostCall) : list (string * string) :=
  omap (fun c => match c with VaultCopy a b => Some (a, b) | _ => None end) cs.

(** Once the backup flag is set it stays set, and no backup call is added. *)
Definition backupDone (w w' : World) : Prop :=
  hasBeenBackedUp (settings w) = true ->
  hasBeenBackedUp (settings w') = true /\ copies (calls w') = copies (calls w).

Ltac unfoldM :=
  unfold mbind, M_bind, mret, M_ret, throw, getSettings, modifySettings,
    readArray, writeArray, newArray, call, getDaily, putDaily, displayNotice,
    saveSettings in *.

(** ** A small vault for examples *)

Module Demo.

Definition nl : string := String newline EmptyString.

Definition noteA : TFile := mkTFile "Notes/A.md" "A" "Notes" 0.
Definition noteB : TFile := mkTFile "Notes/B.md" "B" "Notes" 0.
Definition today : TFile := mkTFile "Daily/2024-01-02.md" "2024-01-02" "Daily" 0.
Definition archived : TFile := mkTFile "Archive/Sub/x.md" "x" "Archive/Sub" 0.

(** The daily note is "# Modified", "old line", "# Next". *)
Definition todayLines : list string := ["# Modified"; "old line"; "# Next"].
Definition todayHeadings : list HeadingCache :=
  [mkHeading "Modified" 0 0; mkHeading "Next" 2 2].

Definition host : Host :=
  mkHost "2024-01-02" "Daily" "2024-01-02" None
    (fun p => if String.eqb p "Notes/A.md" then Some noteA
              else if String.eqb p "Notes/B.md" then Some noteB
              else if String.eqb p "Daily/2024-01-02.md" then Some today
              else if String.eqb p "Archive/Sub/x.md" then Some archived
              else None)
    (fun f => if String.eqb (path f) "Daily/2024-01-02.md"
              then mkCache [] (Some todayHeadings)
              else mkCache ["#work"] None)
    (fun _ => JS.join nl todayLines)
    (fun f _ => "[[" +:+ basename f +:+ "]]")
    (fun _ => "2024-01-01").

Definition config (date format ignoredText : string) (backedUp : bool) : Settings :=
  mkSettings 0 date "Modified" format EmptyString EmptyString ignoredText false backedUp "30".

(** A world whose tracked set is [paths], with today's note in the vault. *)
Definition world (date format ignoredText : string) (paths : list string) : World :=
  mkWorld (config date format ignoredText true) [paths] (Found today) [].

Definition workCache : CachedMetadata := mkCache ["#work"] None.

(** A world that is configured with a heading the daily note does not have. *)
Definition otherHeadingWorld : World :=
  mkWorld (mkSettings 0 "2024-01-02" "Changed" "- [[link]]" EmptyString EmptyString
             "draft" false true "30")
          [["Notes/A.md"]] (Found today) [].

(** Yesterday's state: the stored date is the day before, one path is
    tracked. *)
Definition yesterdayWorld : World :=
  world "2024-01-01" "- [[link]]" "draft" ["Notes/old.md"].

(** Two tracked notes. *)
Definition twoNotesWorld : World :=
  world "2024-01-02" "- [[link]]" "draft" ["Notes/A.md"; "Notes/B.md"].

(** No ignored text is configured; a draft is tracked. *)
Definition draftWorld : World :=
  world "2024-01-02" "- [[link]]" EmptyString ["Notes/draft.md"].

(** The draft becomes today's note, then today's note changes. *)
Definition draftBecomesToday : list (Host * Event) :=
  [(host, VaultRenamed (AFile today) "Notes/draft.md");
   (host, CacheChanged today (mkCache [] (Some todayHeadings)))].

(** Filters as in the scenarios of the specification: the folder "Archive"
    is excluded and the tag "#daily" is ignored. *)
Definition filtered : Settings :=
  mkSettings 0 "2024-01-02" "Modified" "- [[link]]" "#daily" "Archive" "draft"
    false true "30".

(** "Notes/A.md" changes twice in a row. *)
Definition changedTwice : list (Host * Event) :=
  [(host, CacheChanged noteA workCache); (host, CacheChanged noteA workCache)].

(** A template that uses the name twice, next to a token the plugin does
    not know. *)
Definition nameTwiceWorld : World :=
  world "2024-01-02" "- [[name]] / [[name]] [[when]]" "draft" ["Notes/A.md"].

(** The same before the backup of the migration was made. *)
Definition freshWorld (format : string) (paths : list string) : World :=
  mkWorld (config "2024-01-02" format "draft" false) [paths] (Found today) [].

(** A host whose helper creates today's note when asked. *)
Definition creatingHost : Host :=
  mkHost (currentDate host) (dailyNoteFolder host) (dailyNoteStamp host) (Some today)
    (getAbstractFileByPath host) (getFileCache host) (vaultRead host)
    (generateMarkdownLink host) (formatDate host).

(** Today's note does not exist yet and is to be created. *)
Definition noNoteWorld : World :=
  mkWorld (mkSettings 0 "2024-01-02" "Modified" "- [[link]]" EmptyString EmptyString
             "draft" true true "30")
          [["Notes/A.md"]] Absent [].

(** The same host with the daily-notes folder written with its slash. *)
Definition slashHost : Host :=
  mkHost (currentDate host) "Daily/" (dailyNoteStamp host) (createdDailyNote host)
    (getAbstractFileByPath host) (getFileCache host) (vaultRead host)
    (generateMarkdownLink host) (formatDate host).

(** Two tracked notes under the filters of the scenarios. *)
Definition filteredWorld : World :=
  mkWorld filtered [["Notes/A.md"; "Notes/B.md"]] (Found today) [].

End Demo.

(** * Properties *)

Example split_empty : JS.split "," EmptyString = [EmptyString].
Proof. reflexivity. Qed.

Example split_three : JS.split "," "a,,bc," = ["a"; EmptyString; "bc"; EmptyString].
Proof. reflexivity. Qed.

Example replace_first_only : JS.replace "x-y-z" "-" "+" = "x+y-z".
Proof. reflexivity. Qed.

Example replace_dollar : JS.replace "a[[name]]b" "[[name]]" "Cost $$ ($&)" = "aCost $ ([[name]])b".
Proof. reflexivity. Qed.

Example splice_negative_count : JS.splice [1; 2; 3] 1 (-1) [9] = [1; 9; 2; 3].
Proof. reflexivity. Qed.

Example parseInt_examples :
  JS.parseInt "  42px" = JS.Int 42 /\ JS.parseInt "-7" = JS.Int (-7)
  /\ JS.parseInt "0" = JS.Int 0 /\ JS.parseInt "abc" = JS.NaN
  /\ JS.parseInt EmptyString = JS.NaN.
Proof. repeat split; reflexivity. Qed.

(** The radix matters for a text that starts with "0x"; an integer beyond
    2^53 keeps its sign only. *)
Example parseInt_radix_and_range :
  JS.parseInt "0x1F" = JS.Int 0 /\ JS.parseIntNoRadix "0x1F" = JS.Int 31
  /\ JS.parseIntNoRadix "30" = JS.Int 30 /\ JS.parseIntNoRadix "0x" = JS.NaN
  /\ JS.parseInt "9007199254740992" = JS.Int 9007199254740992
  /\ JS.parseInt "9007199254740993" = JS.Huge false
  /\ JS.times (JS.Int 9007199254740) 1000 = JS.Int 9007199254740000
  /\ JS.times (JS.Int 9007199254741) 1000 = JS.Huge false.
Proof. repeat split; reflexivity. Qed.

(** The scenarios of the specification for the filter engine. *)
Example excluded_folder_scenario :
  pathIsExcluded Demo.host Demo.filtered "Archive/Sub/x.md" Demo.twoNotesWorld
  = (Return true, Demo.twoNotesWorld)
  /\ pathIsExcluded Demo.host Demo.filtered "Notes/A.md" Demo.twoNotesWorld
     = (Return false, Demo.twoNotesWorld).
Proof. split; reflexivity. Qed.

Example ignored_tag_scenario :
  cacheContainsIgnoredTag Demo.filtered (mkCache ["#daily"; "#work"] None) = true
  /\ cacheContainsIgnoredTag Demo.filtered (mkCache ["#work"] None) = false.
Proof. split; reflexivity. Qed.

Example ignored_title_scenario :
  noteTitleContainsIgnoredText Demo.filtered "My DRAFT note" = true
  /\ noteTitleContainsIgnoredText Demo.filtered "Minutes" = false.
Proof. split; reflexivity. Qed.

Example excluded_folders_are_normalized :
  map stripSlashes (JS.split "," (replaceFirstSeparator "/Archive/ , Old/")) = ["Archive"; "Old"].
Proof. reflexivity. Qed.

(** ** Strings *)

Lemma append_String (c : ascii) (a b : string) : String c a +:+ b = String c (a +:+ b).
Proof. reflexivity. Qed.

Lemma append_nil_l (a : string) : EmptyString +:+ a = a.
Proof. reflexivity. Qed.

Lemma append_assoc (a b c : string) : (a +:+ b) +:+ c = a +:+ b +:+ c.
Proof.
  induction a as [|x a IH]; [reflexivity|].
  now rewrite !append_String, IH.
Qed.

Lemma append_nil_r (a : string) : a +:+ EmptyString = a.
Proof.
  induction a as [|x a IH]; [reflexivity|].
  now rewrite append_String, IH.
Qed.

Lemma length_append (a b : string) :
  String.length (a +:+ b) = String.length a + String.length b.
Proof.
  induction a as [|x a IH]; [reflexivity|].
  rewrite append_String. simpl. now rewrite IH.
Qed.

Lemma stripPrefix_Some (pat s r : string) :
  JS.stripPrefix pat s = Some r <-> s = pat +:+ r.
Proof.
  revert s. induction pat as [|x pat IH]; intros s; simpl.
  - rewrite append_nil_l. split; [now intros [= ->] | now intros ->].
  - rewrite append_String. destruct s as [|y s].
    + split; discriminate.
    + destruct (Ascii.eqb_spec x y) as [->|Hne].
      * rewrite IH. split; [now intros -> | now intros [= ->]].
      * split; [discriminate | intros [= -> _]; contradiction].
Qed.

Lemma stripPrefix_None (pat s : string) :
  JS.stripPrefix pat s = None <-> forall r, s <> pat +:+ r.
Proof.
  split.
  - intros H r Hr. apply stripPrefix_Some in Hr. congruence.
  - intros H. destruct (JS.stripPrefix pat s) as [r|] eqn:E; [|reflexivity].
    apply stripPrefix_Some in E. now destruct (H r).
Qed.

(** [splitFirst] cuts at an occurrence, and no occurrence starts earlier. *)
Lemma splitFirst_Some (pat s a b : string) :
  JS.splitFirst pat s = Some (a, b) ->
  s = a +:+ pat +:+ b
  /\ forall a' b', s = a' +:+ pat +:+ b' -> String.length a <= String.length a'.
Proof.
  revert a b. induction s as [|c s IH]; intros a b; simpl.
  - destruct (JS.stripPrefix pat EmptyString) as [r|] eqn:E; [|discriminate].
    intros [= <- <-]. apply stripPrefix_Some in E. split; [exact E | simpl; lia].
  - destruct (JS.stripPrefix pat (String c s)) as [r|] eqn:E.
    + intros [= <- <-]. apply stripPrefix_Some in E. split; [exact E | simpl; lia].
    + destruct (JS.splitFirst pat s) as [[a0 b0]|] eqn:E'; [|discriminate].
      intros [= <- <-]. destruct (IH a0 b0 eq_refl) as [Hs Hmin]. split.
      * rewrite append_String. now rewrite <- Hs.
      * intros a' b' H'. destruct a' as [|c' a'].
        -- rewrite append_nil_l in H'. rewrite stripPrefix_None in E. now destruct (E b').
        -- rewrite append_String in H'. injection H' as _ H'. simpl. apply le_n_S. eauto.
Qed.

Lemma splitFirst_None (pat s : string) :
  JS.splitFirst pat s = None -> forall a b, s <> a +:+ pat +:+ b.
Proof.
  induction s as [|c s IH]; simpl.
  - destruct (JS.stripPrefix pat EmptyString) as [r|] eqn:E; [discriminate|].
    intros _ a b H. rewrite stripPrefix_None in E.
    destruct a; [now destruct (E b) | discriminate].
  - destruct (JS.stripPrefix pat (String c s)) as [r|] eqn:E; [discriminate|].
    destruct (JS.splitFirst pat s) as [[a0 b0]|] eqn:E'; [discriminate|].
    intros _ a b H. rewrite stripPrefix_None in E. destruct a as [|c' a].
    + now destruct (E b).
    + rewrite append_String in H. injection H as _ H. now destruct (IH eq_refl a b).
Qed.

(** [replace] meets its relational description. *)
Lemma replace_FirstReplaced (s pat repl : string) :
  FirstReplaced pat repl s (JS.replace s pat repl).
Proof.
  unfold JS.replace. destruct (JS.splitFirst pat s) as [[a b]|] eqn:E.
  - destruct (splitFirst_Some _ _ _ _ E) as [Hs Hmin]. now apply FR_first.
  - apply FR_absent. now apply splitFirst_None.
Qed.

(** Every string includes the empty string. *)
Lemma includes_empty (s : string) : JS.includes s EmptyString = true.
Proof. unfold JS.includes. now destruct s. Qed.

Lemma includes_false (s pat : string) :
  JS.includes s pat = false <-> forall a b, s <> a +:+ pat +:+ b.
Proof.
  unfold JS.includes. destruct (JS.splitFirst pat s) as [[a b]|] eqn:E.
  - split; [discriminate|]. intros H.
    destruct (splitFirst_Some _ _ _ _ E) as [Hs _]. now destruct (H a b).
  - split; [|reflexivity]. intros _. now apply splitFirst_None.
Qed.

Lemma includes_true (s pat : string) :
  JS.includes s pat = true <-> exists a b, s = a +:+ pat +:+ b.
Proof.
  split.
  - unfold JS.includes. destruct (JS.splitFirst pat s) as [[a b]|] eqn:E; [|discriminate].
    intros _. exists a, b. now apply splitFirst_Some.
  - intros (a & b & H). destruct (JS.includes s pat) eqn:E; [reflexivity|].
    rewrite includes_false in E. now destruct (E a b).
Qed.

(** A replacement text without a dollar sign stands for itself. *)
Lemma getSubstitution_plain (m a b repl : string) :
  JS.includes repl "$" = false -> JS.getSubstitution m a b repl = repl.
Proof.
  induction repl as [|c r IH]; [reflexivity|].
  rewrite includes_false. intros H.
  assert (Hc : c <> "$"%char).
  { intros ->. now destruct (H EmptyString r). }
  assert (Hr : JS.includes r "$" = false).
  { apply includes_false. intros a0 b0 ->. now destruct (H (String c a0) b0). }
  assert (Hstep : JS.getSubstitution m a b (String c r) = String c (JS.getSubstitution m a b r)).
  { destruct c as [[] [] [] [] [] [] [] []]; try reflexivity. now destruct Hc. }
  now rewrite Hstep, IH.
Qed.

(** ** Frame rules *)

Section Keeps.

Variable R : World -> World -> Prop.
Hypothesis R_refl : forall w, R w w.
Hypothesis R_trans : forall a b c, R a b -> R b c -> R a c.

Lemma keeps_same {A} (m : M A) : (forall w, (m w).2 = w) -> keeps R m.
Proof. intros H w. rewrite H. apply R_refl. Qed.

Lemma keeps_ret {A} (a : A) : keeps R (mret a).
Proof. now apply keeps_same. Qed.

Lemma keeps_throw {A} (e : Exn) : keeps R (@throw A e).
Proof. now apply keeps_same. Qed.

Lemma keeps_bind {A B} (m : M A) (f : A -> M B) :
  keeps R m -> (forall a, keeps R (f a)) -> keeps R (m ≫= f).
Proof.
  intros Hm Hf w. specialize (Hm w). unfold mbind, M_bind.
  destruct (m w) as [[a|e] w1]; simpl in *; [|exact Hm].
  eapply R_trans; [exact Hm | apply Hf].
Qed.

Lemma keeps_getSettings : keeps R getSettings.
Proof. now apply keeps_same. Qed.

Lemma keeps_getDaily : keeps R getDaily.
Proof. now apply keeps_same. Qed.

Lemma keeps_readArray r : keeps R (readArray r).
Proof. now apply keeps_same. Qed.

Lemma keeps_if {A} (b : bool) (m1 m2 : M A) :
  keeps R m1 -> keeps R m2 -> keeps R (if b then m1 else m2).
Proof. now destruct b. Qed.

Section Update.

Variable host : Host.

(** What [R] has to allow for [updateTrackedFiles] to keep it: any host call
    that is not a backup copy, a change of what the daily-note lookup
    answers, and the backup step itself. *)
Hypothesis R_call : forall c, (forall a b, c <> VaultCopy a b) -> keeps R (call c).
Hypothesis R_daily : forall d, keeps R (putDaily d).
Hypothesis R_backup : forall d, keeps R (backupOnce host d).

Lemma keeps_displayNotice m : keeps R (displayNotice m).
Proof. now apply R_call. Qed.

Lemma keeps_saveSettings : keeps R saveSettings.
Proof. now apply R_call. Qed.

Lemma keeps_getDailyNote : keeps R getDailyNote.
Proof. apply keeps_same. intros w. unfold getDailyNote. unfoldM. now destruct (daily w). Qed.

Lemma keeps_getFormattedOutput p : keeps R (getFormattedOutput host p).
Proof.
  apply keeps_same. intros w. unfold getFormattedOutput, getDailyNote. unfoldM.
  destruct (daily w); simpl; [|reflexivity..].
  now destruct (getAbstractFileByPath host p).
Qed.

Lemma keeps_mapM {A B} (f : A -> M B) (l : list A) :
  (forall a, keeps R (f a)) -> keeps R (mapM f l).
Proof.
  intros Hf. induction l as [|x l IH]; simpl.
  - apply keeps_ret.
  - apply keeps_bind; [apply Hf|]. intros y.
    apply keeps_bind; [exact IH|]. intros ys. apply keeps_ret.
Qed.

Lemma keeps_resolveDailyNote : keeps R resolveDailyNote.
Proof.
  unfold resolveDailyNote. apply keeps_bind; [apply keeps_getDaily|].
  intros [note| |message]; try apply keeps_ret.
  apply keeps_bind; [apply keeps_displayNotice|]. intros _.
  apply keeps_bind; [now apply R_call|]. intros _. apply keeps_ret.
Qed.

Lemma keeps_createIfMissing d : keeps R (createIfMissing host d).
Proof.
  unfold createIfMissing, createDailyNote.
  apply keeps_bind; [apply keeps_getSettings|]. intros s.
  destruct d as [note|]; [apply keeps_ret|].
  apply keeps_if; [|apply keeps_ret].
  apply keeps_bind; [apply keeps_displayNotice|]. intros _.
  apply keeps_bind; [now apply R_call|]. intros _.
  destruct (createdDailyNote host); [|apply keeps_ret].
  apply keeps_bind; [apply R_daily|]. intros _. apply keeps_ret.
Qed.

Lemma keeps_renderInto note : keeps R (renderInto host note).
Proof.
  unfold renderInto.
  apply keeps_bind; [apply keeps_getSettings|]. intros s.
  destruct (headings (getFileCache host note)) as [hs|]; [|apply keeps_displayNotice].
  apply keeps_if; [apply keeps_displayNotice|].
  destruct (findManagedRegion _ _ _) as [[startPos endPos]|]; [|apply keeps_displayNotice].
  apply keeps_bind; [apply keeps_readArray|]. intros paths.
  apply keeps_bind; [apply keeps_mapM, keeps_getFormattedOutput|]. intros entries.
  now apply R_call.
Qed.

Lemma keeps_updateTrackedFiles : keeps R (updateTrackedFiles host).
Proof.
  unfold updateTrackedFiles.
  apply keeps_bind; [apply keeps_saveSettings|]. intros _.
  apply keeps_bind; [apply keeps_resolveDailyNote|]. intros d.
  apply keeps_bind; [apply R_backup|]. intros _.
  apply keeps_bind; [apply keeps_createIfMissing|]. intros [note|].
  - apply keeps_renderInto.
  - apply keeps_ret.
Qed.

End Update.

End Keeps.

(** [updateTrackedFiles] does not touch the tracked set. *)
Lemma sameTracking_refl w : sameTracking w w.
Proof. now split. Qed.

Lemma sameTracking_trans a b c : sameTracking a b -> sameTracking b c -> sameTracking a c.
Proof. intros [H1 H2] [H3 H4]. split; congruence. Qed.

Lemma sameTracking_tracked w w' : sameTracking w w' -> tracked w' = tracked w.
Proof. intros [H1 H2]. unfold tracked. now rewrite H1, H2. Qed.

Lemma updateTrackedFiles_sameTracking host : keeps sameTracking (updateTrackedFiles host).
Proof.
  apply keeps_updateTrackedFiles;
    [apply sameTracking_refl | apply sameTracking_trans | | |].
  - intros c _ w. now split.
  - intros d w. now split.
  - intros d w. unfold backupOnce. unfoldM. simpl.
    destruct d as [note|]; [|now split].
    destruct (hasBeenBackedUp (settings w)); now split.
Qed.

(** Once the backup flag is set, [updateTrackedFiles] leaves it set and makes
    no backup call. *)
Lemma backupDone_refl w : backupDone w w.
Proof. now intros H. Qed.

Lemma backupDone_trans a b c : backupDone a b -> backupDone b c -> backupDone a c.
Proof.
  intros H1 H2 H. destruct (H1 H) as [Hb Hc]. destruct (H2 Hb) as [Hb' Hc'].
  split; congruence.
Qed.

Lemma backupDone_call c : (forall a b, c <> VaultCopy a b) -> keeps backupDone (call c).
Proof.
  intros Hc w H. split; [exact H|]. simpl.
  destruct c; try reflexivity. now destruct (Hc source destination).
Qed.

Lemma updateTrackedFiles_backupDone host : keeps backupDone (updateTrackedFiles host).
Proof.
  apply keeps_updateTrackedFiles;
    [apply backupDone_refl | apply backupDone_trans | apply backupDone_call | |].
  - intros d w H. now split.
  - intros d w H. unfold backupOnce. unfoldM. simpl.
    destruct d as [note|]; [|now split]. rewrite H. now split.
Qed.

(** ** The document splicer *)

Lemma findManagedRegion_skip (pre rest : list HeadingCache) (heading0 : string) (len : Z) :
  Forall (fun x => heading_text x <> heading0) pre ->
  findManagedRegion (pre ++ rest) heading0 len = findManagedRegion rest heading0 len.
Proof.
  induction 1 as [|x pre Hx _ IH]; [reflexivity|].
  simpl. destruct (String.eqb_spec (heading_text x) heading0); [contradiction | exact IH].
Qed.

Lemma findManagedRegion_None (hs : list HeadingCache) (heading0 : string) (len : Z) :
  Forall (fun x => heading_text x <> heading0) hs ->
  findManagedRegion hs heading0 len = None.
Proof.
  intros H. rewrite <- (app_nil_r hs). now rewrite findManagedRegion_skip.
Qed.

Lemma findManagedRegion_Some (hs : list HeadingCache) (heading0 : string) (len : Z) region :
  findManagedRegion hs heading0 len = Some region ->
  exists h, h ∈ hs /\ heading_text h = heading0.
Proof.
  induction hs as [|x hs IH]; [discriminate|]. simpl.
  destruct (String.eqb_spec (heading_text x) heading0) as [E|_].
  - intros _. exists x. split; [left | exact E].
  - intros H. destruct (IH H) as (h & Hin & Hh). exists h. split; [now right | exact Hh].
Qed.

(** [splice] with a start inside the array. *)
Lemma splice_in_range {A} (arr items : list A) (start count : Z) :
  (0 <= start <= Z.of_nat (length arr))%Z ->
  JS.splice arr start count items
  = take (Z.to_nat start) arr ++ items
    ++ drop (Z.to_nat start + Z.to_nat (Z.min (Z.max count 0) (Z.of_nat (length arr) - start))) arr.
Proof.
  intros H. unfold JS.splice.
  destruct (start <? 0)%Z eqn:E; [lia|].
  rewrite Z.min_l by lia. do 3 f_equal. lia.
Qed.

(** The spec scenario: the document "# Modified", "old line", "# Next" with one
    rendered entry.  The line before "# Next" stays. *)
Example splice_scenario :
  spliceManagedRegion Demo.todayLines Demo.todayHeadings "Modified" ["- [[A]]"]
  = Some ["# Modified"; "- [[A]]"; "old line"; "# Next"].
Proof. reflexivity. Qed.




(** ** The orchestrator, step by step *)

Section Steps.

Variable host : Host.

Lemma getFormattedOutput_world (p : string) (w : World) :
  (getFormattedOutput host p w).2 = w.
Proof.
  unfold getFormattedOutput, getDailyNote. unfoldM.
  destruct (daily w); simpl; [|reflexivity..].
  now destruct (getAbstractFileByPath host p).
Qed.

Lemma mapM_getFormattedOutput_world (l : list string) (w : World) :
  (mapM (getFormattedOutput host) l w).2 = w.
Proof.
  induction l as [|p l IH]; [reflexivity|]. simpl. unfoldM.
  pose proof (getFormattedOutput_world p w) as Hp.
  destruct (getFormattedOutput host p w) as [[y|e] w1]; simpl in Hp; subst w1; [|reflexivity].
  destruct (mapM (getFormattedOutput host) l w) as [[ys|e] w1]; simpl in IH; now subst w1.
Qed.

(** A tracked path that names no file makes the rendering of the list throw. *)
Lemma mapM_getFormattedOutput_stale (l : list string) (w : World) (note : TFile) :
  daily w = Found note ->
  (exists p, p ∈ l /\ getAbstractFileByPath host p = None) ->
  mapM (getFormattedOutput host) l w = (Throw TypeError, w).
Proof.
  intros Hd (p & Hin & Hp). induction l as [|q l IH]; [now apply elem_of_nil in Hin|].
  simpl. unfold mbind, M_bind at 1.
  destruct (getAbstractFileByPath host q) as [f|] eqn:Hq.
  - assert (Hin' : p ∈ l).
    { apply elem_of_cons in Hin as [->|H]; [congruence | exact H]. }
    unfold getFormattedOutput at 1, getDailyNote. unfoldM. rewrite Hd, Hq. simpl.
    now rewrite (IH Hin').
  - unfold getFormattedOutput at 1, getDailyNote. unfoldM. now rewrite Hd, Hq.
Qed.

(** [renderInto] issues at most one call, a notice or the document write, and
    changes nothing else. *)
Lemma renderInto_calls (note : TFile) (w : World) :
  exists cs,
    (renderInto host note w).2 = mkWorld (settings w) (heap w) (daily w) (cs ++ calls w)
    /\ (cs = [] \/ (exists m, cs = [ShowNotice m]) \/ exists content, cs = [VaultModify (path note) content]).
Proof.
  unfold renderInto. unfoldM. simpl.
  destruct (headings (getFileCache host note)) as [hs|].
  2: { eexists [_]. split; [reflexivity | right; left; eauto]. }
  destruct (String.eqb (heading (settings w)) EmptyString).
  { eexists [_]. split; [reflexivity | right; left; eauto]. }
  destruct (findManagedRegion _ _ _) as [[startPos endPos]|].
  2: { eexists [_]. split; [reflexivity | right; left; eauto]. }
  pose proof (mapM_getFormattedOutput_world (deref (heap w) (trackedFiles (settings w))) w) as Hm.
  destruct (mapM _ _ w) as [[entries|e] w1]; simpl in Hm; subst w1; simpl.
  - eexists [_]. split; [reflexivity | right; right; eauto].
  - exists []. split; [now destruct w | now left].
Qed.

(** Up to the rendering, [updateTrackedFiles] saves the settings, makes the
    backup when it is due and resolves the note; the rendering then runs in a
    state [w3] in which the lookup finds that note. *)
Lemma updateTrackedFiles_prelude (w : World) :
  exists w3,
    updateTrackedFiles host w
    = match resolvedNote host w with
      | Some note => renderInto host note w3
      | None => (Return tt, w3)
      end
    /\ heap w3 = heap w
    /\ settings w3
       = match backupCalls host w with
         | [] => settings w
         | _ => set_hasBeenBackedUp true (settings w)
         end
    /\ writes (calls w3) = writes (calls w)
    /\ copies (calls w3) = copies (backupCalls host w) ++ copies (calls w)
    /\ (forall note, daily w = Found note ->
          creations (calls w3) = backupCalls host w ++ creations (calls w))
    /\ (forall note, resolvedNote host w = Some note -> daily w3 = Found note).
Proof.
  destruct w as [s h d cs].
  unfold updateTrackedFiles, resolveDailyNote, backupOnce, createIfMissing, createDailyNote,
    resolvedNote, backupCalls.
  unfoldM. simpl.
  destruct d as [note| |message]; simpl.
  - destruct (hasBeenBackedUp s); simpl; eexists; (split; [reflexivity|]);
      repeat split; simpl; auto; intros ? [= ->]; reflexivity.
  - destruct (automaticallyCreateDailyNote s); simpl.
    + destruct (createdDailyNote host) as [f|]; simpl; eexists; (split; [reflexivity|]);
        repeat split; simpl; auto; try discriminate; intros ? [= ->]; reflexivity.
    + eexists; (split; [reflexivity|]); repeat split; simpl; auto; discriminate.
  - destruct (automaticallyCreateDailyNote s); simpl.
    + destruct (createdDailyNote host) as [f|]; simpl; eexists; (split; [reflexivity|]);
        repeat split; simpl; auto; try discriminate; intros ? [= ->]; reflexivity.
    + eexists; (split; [reflexivity|]); repeat split; simpl; auto; discriminate.
Qed.

End Steps.

(** ** The splicer inside [updateTrackedFiles] *)

Lemma findManagedRegion_matches (hs : list HeadingCache) (heading0 : string) (len : Z) :
  (exists h, h ∈ hs /\ heading_text h = heading0) ->
  exists region, findManagedRegion hs heading0 len = Some region.
Proof.
  intros (h & Hin & Hh). induction hs as [|x hs IH]; [now apply elem_of_nil in Hin|].
  simpl. destruct (String.eqb_spec (heading_text x) heading0) as [E|Hne].
  - destruct hs; eauto.
  - apply elem_of_cons in Hin as [->|Hin]; [contradiction | now apply IH].
Qed.

Lemma heading_after_backup (w : World) (cs : list HostCall) :
  heading (match cs with [] => settings w | _ => set_hasBeenBackedUp true (settings w) end)
  = heading (settings w).
Proof. now destruct cs. Qed.

Lemma trackedFiles_after_backup (w : World) (cs : list HostCall) :
  trackedFiles (match cs with [] => settings w | _ => set_hasBeenBackedUp true (settings w) end)
  = trackedFiles (settings w).
Proof. now destruct cs. Qed.

(** C7: when the daily note resolves and its heading list is missing, or no
    heading is configured, or no heading of the list has exactly the
    configured text, [updateTrackedFiles] returns without a document write
    (the recorded [vault.modify] calls are those from before) and the last
    thing it does is to show the "Cannot create list" notice. *)
Theorem missing_heading_leaves_document (host : Host) (w : World) (note : TFile) :
  resolvedNote host w = Some note ->
  (headings (getFileCache host note) = None
   \/ heading (settings w) = EmptyString
   \/ exists hs, headings (getFileCache host note) = Some hs
                 /\ Forall (fun h => heading_text h <> heading (settings w)) hs) ->
  exists w' m,
    updateTrackedFiles host w = (Return tt, w')
    /\ writes (calls w') = writes (calls w)
    /\ (m = noHeadingsNotice \/ m = headingNotFoundNotice)
    /\ head (calls w') = Some (ShowNotice ("[Obsidian List Modified] " +:+ m)).
Proof.
  intros Hnote Hcase.
  destruct (updateTrackedFiles_prelude host w) as (w3 & Hrun & _ & Hs & Hw & _).
  rewrite Hnote in Hrun. rewrite Hrun. clear Hrun.
  unfold renderInto. unfoldM. simpl.
  assert (Hh : heading (settings w3) = heading (settings w)).
  { rewrite Hs. apply heading_after_backup. }
  destruct (headings (getFileCache host note)) as [hs|] eqn:Ehs.
  - destruct (String.eqb_spec (heading (settings w3)) EmptyString) as [E|Hne].
    + exists (mkWorld (settings w3) (heap w3) (daily w3)
                (ShowNotice ("[Obsidian List Modified] " +:+ noHeadingsNotice) :: calls w3)),
        noHeadingsNotice.
      repeat split; auto.
    + destruct Hcase as [Hc|[Hc|(hs' & [= <-] & Hall)]]; [discriminate | congruence |].
      rewrite Hh, findManagedRegion_None by exact Hall.
      exists (mkWorld (settings w3) (heap w3) (daily w3)
                (ShowNotice ("[Obsidian List Modified] " +:+ headingNotFoundNotice) :: calls w3)),
        headingNotFoundNotice.
      repeat split; auto.
  - exists (mkWorld (settings w3) (heap w3) (daily w3)
              (ShowNotice ("[Obsidian List Modified] " +:+ noHeadingsNotice) :: calls w3)),
      noHeadingsNotice.
    repeat split; auto.
Qed.

Lemma missing_heading_leaves_document_witness :
  exists w' m,
    updateTrackedFiles Demo.host Demo.otherHeadingWorld = (Return tt, w')
    /\ writes (calls w') = writes (calls Demo.otherHeadingWorld)
    /\ (m = noHeadingsNotice \/ m = headingNotFoundNotice)
    /\ head (calls w') = Some (ShowNotice ("[Obsidian List Modified] " +:+ m)).
Proof.
  apply (missing_heading_leaves_document Demo.host Demo.otherHeadingWorld Demo.today eq_refl).
  right. right. exists Demo.todayHeadings. split; [reflexivity|].
  repeat constructor; discriminate.
Defined.

(** ** Stale entries *)

(** C4, as the claim states it, fails: with the tracked set "gone.md",
    "Notes/B.md", of which the first names no file, [updateTrackedFiles]
    throws, and the document is not written, not even with the entry of
    "Notes/B.md". *)
Lemma stale_entry_throws_out_of_render :
  getAbstractFileByPath Demo.host "gone.md" = None
  /\ (updateTrackedFiles Demo.host
        (Demo.world "2024-01-02" "- [[link]]" "draft" ["gone.md"; "Notes/B.md"])).1
     = Throw TypeError
  /\ writes (calls (updateTrackedFiles Demo.host
        (Demo.world "2024-01-02" "- [[link]]" "draft" ["gone.md"; "Notes/B.md"])).2) = [].
Proof. repeat split; reflexivity. Qed.

(** C4 (amended): when the daily note resolves, the configured heading is
    found in it, and some tracked path names no file, [updateTrackedFiles]
    throws a [TypeError] out of the rendering of the list; no entry is
    written, the document is not written at all. *)
Theorem stale_entry_aborts_render (host : Host) (w : World) (note : TFile)
    (hs : list HeadingCache) :
  resolvedNote host w = Some note ->
  headings (getFileCache host note) = Some hs ->
  heading (settings w) <> EmptyString ->
  (exists h, h ∈ hs /\ heading_text h = heading (settings w)) ->
  (exists p, p ∈ tracked w /\ getAbstractFileByPath host p = None) ->
  exists w',
    updateTrackedFiles host w = (Throw TypeError, w')
    /\ writes (calls w') = writes (calls w).
Proof.
  intros Hnote Hhs Hne Hmatch Hstale.
  destruct (updateTrackedFiles_prelude host w) as (w3 & Hrun & Hheap & Hs & Hw & _ & _ & Hd).
  rewrite Hnote in Hrun. rewrite Hrun. clear Hrun.
  specialize (Hd note Hnote).
  assert (Hh : heading (settings w3) = heading (settings w)).
  { rewrite Hs. apply heading_after_backup. }
  assert (Ht : trackedFiles (settings w3) = trackedFiles (settings w)).
  { rewrite Hs. apply trackedFiles_after_backup. }
  unfold renderInto. unfoldM. simpl. rewrite Hhs, Hh.
  destruct (String.eqb_spec (heading (settings w)) EmptyString) as [E|_]; [contradiction|].
  destruct (findManagedRegion_matches hs (heading (settings w))
              (Z.of_nat (length (JS.split newline (vaultRead host note)))) Hmatch)
    as ([startPos endPos] & ->).
  rewrite Ht, Hheap. unfold tracked in Hstale.
  rewrite (mapM_getFormattedOutput_stale host _ w3 note Hd Hstale).
  exists w3. split; [reflexivity | exact Hw].
Qed.

Lemma stale_entry_aborts_render_witness :
  exists w',
    updateTrackedFiles Demo.host
      (Demo.world "2024-01-02" "- [[link]]" "draft" ["gone.md"; "Notes/B.md"])
    = (Throw TypeError, w')
    /\ writes (calls w')
       = writes (calls (Demo.world "2024-01-02" "- [[link]]" "draft" ["gone.md"; "Notes/B.md"])).
Proof.
  apply (stale_entry_aborts_render Demo.host
           (Demo.world "2024-01-02" "- [[link]]" "draft" ["gone.md"; "Notes/B.md"])
           Demo.today Demo.todayHeadings eq_refl eq_refl).
  - discriminate.
  - exists (mkHeading "Modified" 0 0). split; [left | reflexivity].
  - exists "gone.md". split; [left | reflexivity].
Defined.

(** ** The backup *)

(** C5, the code at the failing input: the daily notes are in the folder
    "Daily", the daily note is "Daily/2024-01-02.md" and no backup was made
    yet.  The one copy goes to "Daily2024-01-02-BACKUP.md": the folder and
    the date are put together without the separator, so the backup is not
    the note's path with "-BACKUP.md" for its extension, and not in the
    folder at all.  With the folder written "Daily/" the same code gives the
    path of the claim. *)
Theorem backup_path_lacks_separator :
  daily (Demo.freshWorld "- [[link]]" []) = Found Demo.today
  /\ hasBeenBackedUp (settings (Demo.freshWorld "- [[link]]" [])) = false
  /\ copies (calls (updateTrackedFiles Demo.host (Demo.freshWorld "- [[link]]" [])).2)
     = [("Daily/2024-01-02.md", "Daily2024-01-02-BACKUP.md")]
  /\ "Daily2024-01-02-BACKUP.md"
     <> parent_path Demo.today +:+ "/" +:+ basename Demo.today +:+ "-BACKUP.md"
  /\ "Daily2024-01-02-BACKUP.md" <> path Demo.today +:+ "-BACKUP.md"
  /\ JS.startsWith "Daily2024-01-02-BACKUP.md" "Daily/" = false
  /\ copies (calls (updateTrackedFiles Demo.slashHost (Demo.freshWorld "- [[link]]" [])).2)
     = [("Daily/2024-01-02.md",
         parent_path Demo.today +:+ "/" +:+ basename Demo.today +:+ "-BACKUP.md")].
Proof. repeat split; try reflexivity; discriminate. Qed.

Lemma getDailyNote_world (w : World) : (getDailyNote w).2 = w.
Proof. unfold getDailyNote. unfoldM. now destruct (daily w). Qed.

Lemma pathIsExcluded_world (host : Host) (s : Settings) (p : string) (w : World) :
  (pathIsExcluded host s p w).2 = w.
Proof.
  unfold pathIsExcluded. destruct (String.eqb _ _); [reflexivity|].
  now destruct (getAbstractFileByPath host p).
Qed.

Lemma backupDone_bind {A B} (m : M A) (f : A -> M B) :
  keeps backupDone m -> (forall a, keeps backupDone (f a)) -> keeps backupDone (m ≫= f).
Proof. apply keeps_bind, backupDone_trans. Qed.

Lemma backupDone_same {A} (m : M A) : (forall w, (m w).2 = w) -> keeps backupDone m.
Proof. apply keeps_same, backupDone_refl. Qed.

Lemma backupDone_quiet {A} (m : M A) :
  (forall w, hasBeenBackedUp (settings (m w).2) = hasBeenBackedUp (settings w)
             /\ calls (m w).2 = calls w) ->
  keeps backupDone m.
Proof. intros H w Hb. destruct (H w) as [H1 H2]. rewrite H1, H2. now split. Qed.

(** No handler unsets the backup flag or makes a backup once it is set. *)
Lemma handle_backupDone (host : Host) (e : Event) : keeps backupDone (handle host e).
Proof.
  destruct e as [file cache|file|file oldPath|]; simpl;
    [unfold onCacheChange, rollover, updateMembership | unfold onVaultDelete | unfold onVaultRename, saveSettings | ];
    repeat
      match goal with
      | |- keeps _ (updateTrackedFiles _) => apply updateTrackedFiles_backupDone
      | |- keeps _ (mbind _ _) => apply backupDone_bind; [|intros ?]
      | |- keeps _ getDailyNote => apply backupDone_same, getDailyNote_world
      | |- keeps _ (pathIsExcluded _ _ _) => apply backupDone_same, pathIsExcluded_world
      | |- keeps _ (call _) => apply backupDone_call; discriminate
      | |- keeps _ (if ?b then _ else _) => destruct b
      | |- keeps _ (match ?x with _ => _ end) => destruct x
      | |- keeps _ _ => apply backupDone_quiet; intros ?; split; reflexivity
      end.
Qed.

Lemma runEvents_backupDone (es : list (Host * Event)) (w : World) :
  backupDone w (runEvents es w).
Proof.
  revert w. induction es as [|[host e] es IH]; intros w; simpl.
  - apply backupDone_refl.
  - eapply backupDone_trans; [apply handle_backupDone | apply IH].
Qed.

(** The backup is made once: in a run of [updateTrackedFiles] in which the
    lookup finds the daily note and the flag [hasBeenBackedUp] is not set,
    the only call that creates a file is one copy of the daily note, to
    [backupPath]; the flag is set, and through every later sequence of
    events it stays set and no further copy is made. *)
Lemma backup_made_once (host : Host) (w : World) (note : TFile) :
  daily w = Found note ->
  hasBeenBackedUp (settings w) = false ->
  creations (calls (updateTrackedFiles host w).2)
  = VaultCopy (path note) (backupPath host) :: creations (calls w)
  /\ hasBeenBackedUp (settings (updateTrackedFiles host w).2) = true
  /\ forall es : list (Host * Event),
      hasBeenBackedUp (settings (runEvents es (updateTrackedFiles host w).2)) = true
      /\ copies (calls (runEvents es (updateTrackedFiles host w).2))
         = copies (calls (updateTrackedFiles host w).2).
Proof.
  intros Hd Hb.
  destruct (updateTrackedFiles_prelude host w) as (w3 & Hrun & _ & Hs & _ & _ & Hcr & _).
  specialize (Hcr note Hd).
  unfold resolvedNote in Hrun. unfold backupCalls in Hs, Hcr. rewrite Hd in Hrun, Hs, Hcr.
  rewrite Hb in Hs, Hcr. rewrite Hrun.
  destruct (renderInto_calls host note w3) as (cs & -> & Hcs). simpl.
  assert (Hflag : hasBeenBackedUp (settings w3) = true) by now rewrite Hs.
  split; [|split].
  - destruct Hcs as [->|[(m & ->)|(content & ->)]]; simpl; exact Hcr.
  - exact Hflag.
  - intros es. now apply runEvents_backupDone.
Qed.

Lemma backup_made_once_witness :
  creations (calls (updateTrackedFiles Demo.host (Demo.freshWorld "- [[link]]" [])).2)
  = [VaultCopy "Daily/2024-01-02.md" "Daily2024-01-02-BACKUP.md"]
  /\ hasBeenBackedUp (settings (updateTrackedFiles Demo.host (Demo.freshWorld "- [[link]]" [])).2)
     = true.
Proof.
  destruct (backup_made_once Demo.host (Demo.freshWorld "- [[link]]" []) Demo.today
              eq_refl eq_refl) as (H1 & H2 & _).
  split; [exact H1 | exact H2].
Defined.

(** ** Arrays of paths *)

Lemma arrIncludes_true (arr : list string) (x : string) :
  JS.arrIncludes arr x = true <-> x ∈ arr.
Proof.
  unfold JS.arrIncludes. rewrite existsb_exists, list_elem_of_In. split.
  - intros (y & Hin & Hy). apply String.eqb_eq in Hy. now subst.
  - intros Hin. exists x. split; [exact Hin | apply String.eqb_refl].
Qed.

Lemma arrIncludes_false (arr : list string) (x : string) :
  JS.arrIncludes arr x = false <-> x ∉ arr.
Proof.
  rewrite <- arrIncludes_true. now destruct (JS.arrIncludes arr x).
Qed.

Lemma remove_elem_of (arr : list string) (x y : string) :
  y ∈ JS.remove arr x <-> y ∈ arr /\ y <> x.
Proof.
  unfold JS.remove. rewrite !list_elem_of_In, filter_In.
  rewrite negb_true_iff, String.eqb_neq. reflexivity.
Qed.

Lemma remove_NoDup (arr : list string) (x : string) :
  NoDup arr -> NoDup (JS.remove arr x).
Proof.
  induction 1 as [|y arr Hy Hnd IH]; [constructor|]. simpl.
  destruct (negb (String.eqb y x)); [|exact IH].
  constructor; [|exact IH]. rewrite remove_elem_of. tauto.
Qed.

Lemma remove_absent (arr : list string) (x : string) :
  x ∉ arr -> JS.remove arr x = arr.
Proof.
  induction arr as [|y arr IH]; [reflexivity|].
  rewrite not_elem_of_cons. intros [Hne Hnin]. simpl.
  destruct (String.eqb_spec y x) as [->|_]; [contradiction|].
  simpl. now rewrite IH.
Qed.

Lemma remove_length (arr : list string) (x : string) :
  NoDup arr -> x ∈ arr -> S (length (JS.remove arr x)) = length arr.
Proof.
  induction arr as [|y arr IH]; [intros _ H; now apply elem_of_nil in H|].
  rewrite NoDup_cons. intros [Hy Hnd] Hin. simpl.
  destruct (String.eqb_spec y x) as [->|Hne]; simpl.
  - now rewrite remove_absent.
  - apply elem_of_cons in Hin as [->|Hin]; [contradiction|]. now rewrite IH.
Qed.

Lemma push_NoDup (arr : list string) (x : string) :
  NoDup arr -> x ∉ arr -> NoDup (JS.push arr x).
Proof.
  intros Hnd Hx. unfold JS.push. apply NoDup_app. repeat split; [exact Hnd | | apply NoDup_singleton].
  intros y Hy Hy'. apply list_elem_of_singleton in Hy'. now subst.
Qed.

Lemma deref_insert (h : list (list string)) (r : nat) (arr : list string) :
  r < length h -> deref (<[r := arr]> h) r = arr.
Proof. intros H. unfold deref. now rewrite list_lookup_insert_eq. Qed.

Lemma deref_insert_ne (h : list (list string)) (r r' : nat) (arr : list string) :
  r <> r' -> deref (<[r := arr]> h) r' = deref h r'.
Proof. intros H. unfold deref. now rewrite list_lookup_insert_ne. Qed.

Lemma insert_deref (h : list (list string)) (r : nat) :
  <[r := deref h r]> h = h.
Proof.
  unfold deref. destruct (h !! r) as [arr|] eqn:E; simpl.
  - now apply list_insert_id.
  - apply list_insert_ge. now apply lookup_ge_None.
Qed.

(** ** The membership update *)

(** [pathIsExcluded] reads the state but does not depend on it; it throws only
    when the path names no file. *)
Lemma pathIsExcluded_run (host : Host) (s : Settings) (p : string) :
  exists o, (forall w, pathIsExcluded host s p w = (o, w))
            /\ (is_Some (getAbstractFileByPath host p) -> exists b, o = Return b).
Proof.
  unfold pathIsExcluded. destruct (String.eqb _ _).
  - exists (Return false). split; [reflexivity | eauto].
  - destruct (getAbstractFileByPath host p) as [f|].
    + eexists (Return _). split; [reflexivity | eauto].
    + exists (Throw TypeError). split; [reflexivity|]. intros [? [=]].
Qed.

Lemma arrIncludes_push (arr : list string) (p : string) :
  JS.arrIncludes (JS.push arr p) p = true.
Proof. apply arrIncludes_true. unfold JS.push. apply elem_of_app. right. left. Qed.

(** The membership update leaves the array as it is, or deletes the path, or
    appends it when it was not there; it changes nothing but that array. *)
Lemma updateMembership_run (host : Host) (r : nat) (file : TFile) (cache : CachedMetadata)
    (w : World) :
  r < length (heap w) ->
  exists o arr',
    updateMembership host r file cache w
    = (o, mkWorld (settings w) (<[r := arr']> (heap w)) (daily w) (calls w))
    /\ (arr' = deref (heap w) r
        \/ arr' = JS.remove (deref (heap w) r) (path file)
        \/ (arr' = JS.push (deref (heap w) r) (path file)
            /\ (path file ∉ deref (heap w) r)
            /\ noteTitleContainsIgnoredText (settings w) (basename file) = false))
    /\ (noteTitleContainsIgnoredText (settings w) (basename file) = true ->
        is_Some (getAbstractFileByPath host (path file)) ->
        arr' = JS.remove (deref (heap w) r) (path file)).
Proof.
  intros Hr. destruct w as [s h d cs]. simpl in *.
  destruct (pathIsExcluded_run host s (path file)) as (o & Ho & Hres).
  unfold updateMembership. unfoldM. simpl.
  set (arr := deref h r). set (p := path file).
  set (title := noteTitleContainsIgnoredText s (basename file)).
  set (tag := cacheContainsIgnoredTag s cache).
  assert (Hsame : forall o' : Outcome unit,
             exists o0 arr',
               (o', mkWorld s h d cs) = (o0, mkWorld s (<[r := arr']> h) d cs)
               /\ (arr' = arr \/ arr' = JS.remove arr p
                   \/ (arr' = JS.push arr p /\ (p ∉ arr) /\ title = false))).
  { intros o'. exists o', arr. split; [|now left].
    subst arr. now rewrite insert_deref. }
  destruct (JS.arrIncludes arr p) eqn:Einc; simpl.
  - fold arr. rewrite Einc. destruct tag; simpl.
    + exists (Return tt), (JS.remove arr p). split; [reflexivity|]. split; auto.
    + rewrite Ho. destruct o as [[|]|e].
      * exists (Return tt), (JS.remove arr p). split; [reflexivity|]. split; auto.
      * destruct title.
        -- exists (Return tt), (JS.remove arr p). split; [reflexivity|]. split; auto.
        -- destruct (Hsame (Return tt)) as (o0 & arr' & H1 & H2).
           exists o0, arr'. split; [exact H1|]. split; [exact H2 | discriminate].
      * destruct (Hsame (Throw e)) as (o0 & arr' & H1 & H2).
        exists o0, arr'. split; [exact H1|]. split; [exact H2|].
        intros _ Hsome. destruct (Hres Hsome) as [b [=]].
  - destruct tag; simpl.
    + fold arr. rewrite Einc. simpl. rewrite Ho. destruct o as [[|]|e].
      * exists (Return tt), (JS.remove arr p). split; [reflexivity|]. split; auto.
      * destruct title.
        -- exists (Return tt), (JS.remove arr p). split; [reflexivity|]. split; auto.
        -- destruct (Hsame (Return tt)) as (o0 & arr' & H1 & H2).
           exists o0, arr'. split; [exact H1|]. split; [exact H2 | discriminate].
      * destruct (Hsame (Throw e)) as (o0 & arr' & H1 & H2).
        exists o0, arr'. split; [exact H1|]. split; [exact H2|].
        intros _ Hsome. destruct (Hres Hsome) as [b [=]].
    + rewrite Ho. destruct o as [[|]|e]; simpl.
      * fold arr. rewrite Einc. simpl. rewrite Ho.
        exists (Return tt), (JS.remove arr p). split; [reflexivity|]. split; auto.
      * destruct title eqn:Etitle; simpl.
        -- fold arr. rewrite Einc. simpl. rewrite Ho.
           exists (Return tt), (JS.remove arr p). split; [reflexivity|]. split; auto.
        -- rewrite deref_insert by exact Hr. rewrite arrIncludes_push. simpl.
           rewrite Ho.
           exists (Return tt), (JS.push arr p). split; [reflexivity|]. split.
           ++ right. right. split; [reflexivity|]. split; [|reflexivity].
              now apply arrIncludes_false.
           ++ discriminate.
      * destruct (Hsame (Throw e)) as (o0 & arr' & H1 & H2).
        exists o0, arr'. split; [exact H1|]. split; [exact H2|].
        intros _ Hsome. destruct (Hres Hsome) as [b [=]].
Qed.

(** ** The handlers and the tracked set *)

Lemma rollover_run (date : string) (w : World) :
  rollover date w
  = (Return tt,
     if String.eqb (lastTrackedDate (settings w)) date then w
     else mkWorld (set_lastTrackedDate date (set_trackedFiles (length (heap w)) (settings w)))
            (heap w ++ [[]]) (daily w) (calls w)).
Proof.
  unfold rollover. unfoldM. simpl.
  destruct (String.eqb _ _); [now destruct w | reflexivity].
Qed.

Lemma updateTrackedFiles_tracked (host : Host) (w : World) :
  tracked (updateTrackedFiles host w).2 = tracked w
  /\ length (heap (updateTrackedFiles host w).2) = length (heap w)
  /\ trackedFiles (settings (updateTrackedFiles host w).2) = trackedFiles (settings w).
Proof.
  destruct (updateTrackedFiles_sameTracking host w) as [H1 H2].
  unfold tracked. rewrite H1, H2. auto.
Qed.

(** [onCacheChange] in steps: the rollover, the lookup of the daily note, the
    membership update on the array named before the rollover, the render. *)
Lemma onCacheChange_steps (host : Host) (file : TFile) (cache : CachedMetadata) (w : World) :
  onCacheChange host file cache w
  = match daily w with
    | Fails message => (Throw (HostError message), (rollover (currentDate host) w).2)
    | Found _ | Absent =>
        if sameFile file (match daily w with Found note => Some note | _ => None end)
        then (Return tt, (rollover (currentDate host) w).2)
        else
          match updateMembership host (trackedFiles (settings w)) file cache
                  (rollover (currentDate host) w).2 with
          | (Return _, w2) => updateTrackedFiles host w2
          | (Throw e, w2) => (Throw e, w2)
          end
    end.
Proof.
  unfold onCacheChange. unfold mbind at 1, M_bind at 1. unfold getSettings at 1.
  unfold mbind at 1, M_bind at 1. rewrite rollover_run. simpl.
  assert (Hd : daily (if String.eqb (lastTrackedDate (settings w)) (currentDate host) then w
       else mkWorld (set_lastTrackedDate (currentDate host)
                       (set_trackedFiles (length (heap w)) (settings w)))
              (heap w ++ [[]]) (daily w) (calls w)) = daily w)
    by now destruct (String.eqb _ _).
  unfold mbind at 1, M_bind at 1. unfold getDailyNote. unfoldM. rewrite Hd.
  destruct (daily w) as [note| |message]; simpl; try reflexivity.
  now destruct (String.eqb (path file) (path note)).
Qed.

Lemma deref_app (h : list (list string)) (r : nat) (extra : list (list string)) :
  r < length h -> deref (h ++ extra) r = deref h r.
Proof. intros H. unfold deref. now rewrite lookup_app_l. Qed.

Lemma deref_fresh (h : list (list string)) (arr : list string) :
  deref (h ++ [arr]) (length h) = arr.
Proof. unfold deref. now rewrite list_lookup_middle. Qed.

(** The state after [onCacheChange]: the store is the one the rollover left,
    with the array named before the rollover updated in place; the settings
    name the array the rollover chose. *)
Lemma onCacheChange_effect (host : Host) (file : TFile) (cache : CachedMetadata) (w : World) :
  wf w ->
  exists arr',
    heap (onCacheChange host file cache w).2
    = <[trackedFiles (settings w) := arr']> (heap (rollover (currentDate host) w).2)
    /\ trackedFiles (settings (onCacheChange host file cache w).2)
       = trackedFiles (settings (rollover (currentDate host) w).2)
    /\ (arr' = tracked w
        \/ arr' = JS.remove (tracked w) (path file)
        \/ (arr' = JS.push (tracked w) (path file)
            /\ (path file ∉ tracked w)
            /\ noteTitleContainsIgnoredText (settings w) (basename file) = false))
    /\ (noteTitleContainsIgnoredText (settings w) (basename file) = true ->
        membershipUpdateRuns host w file ->
        arr' = JS.remove (tracked w) (path file)).
Proof.
  intros Hwf. unfold wf in Hwf.
  set (w1 := (rollover (currentDate host) w).2).
  assert (Hr : trackedFiles (settings w) < length (heap w1)).
  { subst w1. rewrite rollover_run. simpl. destruct (String.eqb _ _); simpl; [exact Hwf|].
    rewrite length_app. lia. }
  assert (Harr : deref (heap w1) (trackedFiles (settings w)) = tracked w).
  { subst w1. rewrite rollover_run. simpl. destruct (String.eqb _ _); simpl; [reflexivity|].
    now apply deref_app. }
  assert (Htitle : noteTitleContainsIgnoredText (settings w1) (basename file)
                   = noteTitleContainsIgnoredText (settings w) (basename file)).
  { subst w1. rewrite rollover_run. simpl. now destruct (String.eqb _ _). }
  assert (Hearly : exists arr',
             heap w1 = <[trackedFiles (settings w) := arr']> (heap w1)
             /\ (arr' = tracked w
                 \/ arr' = JS.remove (tracked w) (path file)
                 \/ (arr' = JS.push (tracked w) (path file)
                     /\ (path file ∉ tracked w)
                     /\ noteTitleContainsIgnoredText (settings w) (basename file) = false))).
  { exists (tracked w). split; [|now left]. rewrite <- Harr. now rewrite insert_deref. }
  rewrite onCacheChange_steps. fold w1. unfold membershipUpdateRuns.
  destruct (daily w) as [note| |message] eqn:Hd; simpl.
  - destruct (String.eqb_spec (path file) (path note)) as [Esame|Nsame].
    + destruct Hearly as (arr' & H1 & H2). exists arr'. simpl.
      repeat split; auto. intros _ [Hne _]. contradiction.
    + destruct (updateMembership_run host _ file cache w1 Hr) as (o & arr' & Hrun & H1 & H2).
      rewrite Hrun, Harr, Htitle in *. exists arr'.
      destruct (updateTrackedFiles_sameTracking host
                  (mkWorld (settings w1) (<[trackedFiles (settings w) := arr']> (heap w1))
                     (daily w1) (calls w1))) as [Hh Ht].
      destruct o as [[]|e]; simpl in *; repeat split; auto; intros Ht' [_ Hs]; auto.
  - destruct (updateMembership_run host _ file cache w1 Hr) as (o & arr' & Hrun & H1 & H2).
    rewrite Hrun, Harr, Htitle in *. exists arr'.
    destruct (updateTrackedFiles_sameTracking host
                (mkWorld (settings w1) (<[trackedFiles (settings w) := arr']> (heap w1))
                   (daily w1) (calls w1))) as [Hh Ht].
    destruct o as [[]|e]; simpl in *; repeat split; auto; intros Ht' [_ Hs]; auto.
  - destruct Hearly as (arr' & H1 & H2). exists arr'. simpl.
    repeat split; auto. intros _ [[] _].
Qed.

(** The tracked set after [onCacheChange]. *)
Lemma onCacheChange_tracked (host : Host) (file : TFile) (cache : CachedMetadata) (w : World) :
  wf w ->
  wf (onCacheChange host file cache w).2
  /\ (lastTrackedDate (settings w) <> currentDate host ->
      tracked (onCacheChange host file cache w).2 = [])
  /\ (lastTrackedDate (settings w) = currentDate host ->
      (tracked (onCacheChange host file cache w).2 = tracked w
       \/ tracked (onCacheChange host file cache w).2 = JS.remove (tracked w) (path file)
       \/ (tracked (onCacheChange host file cache w).2 = JS.push (tracked w) (path file)
           /\ (path file ∉ tracked w)
           /\ noteTitleContainsIgnoredText (settings w) (basename file) = false))
      /\ (noteTitleContainsIgnoredText (settings w) (basename file) = true ->
          membershipUpdateRuns host w file ->
          tracked (onCacheChange host file cache w).2 = JS.remove (tracked w) (path file))).
Proof.
  intros Hwf. destruct (onCacheChange_effect host file cache w Hwf) as (arr' & Hh & Ht & H1 & H2).
  assert (Htr : tracked (onCacheChange host file cache w).2
                = deref (<[trackedFiles (settings w) := arr']>
                           (heap (rollover (currentDate host) w).2))
                    (trackedFiles (settings (rollover (currentDate host) w).2))).
  { unfold tracked. now rewrite Hh, Ht. }
  rewrite !Htr. unfold wf in *. rewrite Hh, Ht, rollover_run. clear Htr Hh Ht.
  destruct (String.eqb_spec (lastTrackedDate (settings w)) (currentDate host)) as [Edate|Ndate];
    simpl.
  - rewrite length_insert, deref_insert by exact Hwf.
    split; [exact Hwf|]. split; [intros H; contradiction|]. intros _. split; assumption.
  - rewrite length_insert, length_app. simpl. split; [lia|].
    split; [|intros H; contradiction]. intros _.
    rewrite deref_insert_ne by lia. apply deref_fresh.
Qed.

(** *** The filter on the title *)

Lemma noteTitleContainsIgnoredText_empty (s : Settings) (title : string) :
  ignoredNameContains s = EmptyString -> noteTitleContainsIgnoredText s title = true.
Proof.
  intros H. unfold noteTitleContainsIgnoredText. rewrite H. simpl.
  now rewrite includes_empty.
Qed.

(** C10, as the claim states it, fails: the ignored text is empty, the
    tracked draft is renamed to the path of today's note, and a change of
    today's note does not remove that path, because [onCacheChange] returns
    before the membership update when the file is the daily note. *)
Lemma empty_ignore_text_keeps_daily_note :
  ignoredNameContains (settings Demo.draftWorld) = EmptyString
  /\ tracked (runEvents Demo.draftBecomesToday Demo.draftWorld) = [path Demo.today].
Proof. split; reflexivity. Qed.

(** C10 (amended): when the setting [ignoredNameContains] is the empty
    string, [noteTitleContainsIgnoredText] is true for every title;
    [onCacheChange] then adds no path to the tracked set, and when it gets to
    its membership update (the daily-note lookup answers, the changed file is
    not the daily note and is in the vault) the path of the changed file is
    not in the tracked set afterwards. *)
Theorem empty_ignore_text_rejects_every_title
    (host : Host) (file : TFile) (cache : CachedMetadata) (w : World) :
  wf w ->
  ignoredNameContains (settings w) = EmptyString ->
  (forall title, noteTitleContainsIgnoredText (settings w) title = true)
  /\ (forall p, p ∈ tracked (onCacheChange host file cache w).2 -> p ∈ tracked w)
  /\ (membershipUpdateRuns host w file ->
      path file ∉ tracked (onCacheChange host file cache w).2).
Proof.
  intros Hwf Hempty.
  assert (Htitle : forall title, noteTitleContainsIgnoredText (settings w) title = true)
    by (intros title; now apply noteTitleContainsIgnoredText_empty).
  split; [exact Htitle|].
  destruct (onCacheChange_tracked host file cache w Hwf) as (_ & Hroll & Hsame).
  destruct (String.eqb_spec (lastTrackedDate (settings w)) (currentDate host)) as [Edate|Ndate].
  - destruct (Hsame Edate) as [Hcases Hrem]. split.
    + intros p. destruct Hcases as [->|[->|(_ & _ & Hfalse)]].
      * auto.
      * rewrite remove_elem_of. tauto.
      * rewrite Htitle in Hfalse. discriminate.
    + intros Hruns. rewrite (Hrem (Htitle _) Hruns), remove_elem_of. tauto.
  - rewrite (Hroll Ndate). split.
    + intros p Hp. now apply elem_of_nil in Hp.
    + intros _. apply not_elem_of_nil.
Qed.

Lemma empty_ignore_text_rejects_every_title_witness :
  (forall title, noteTitleContainsIgnoredText (settings Demo.draftWorld) title = true)
  /\ "Notes/A.md" ∉ tracked (onCacheChange Demo.host Demo.noteA Demo.workCache Demo.draftWorld).2.
Proof.
  assert (Hwf : wf Demo.draftWorld) by (unfold wf; simpl; lia).
  assert (Hruns : membershipUpdateRuns Demo.host Demo.draftWorld Demo.noteA).
  { split; [discriminate | now exists Demo.noteA]. }
  destruct (empty_ignore_text_rejects_every_title Demo.host Demo.noteA Demo.workCache
              Demo.draftWorld Hwf eq_refl) as (H1 & _ & H3).
  split; [exact H1 | exact (H3 Hruns)].
Defined.

(** *** The daily rollover *)

(** On a new day the tracked set is empty after [onCacheChange], whatever
    file changed: the membership update works on the array of the day
    before, which the settings no longer name. *)
Lemma onCacheChange_rollover_empties
    (host : Host) (file : TFile) (cache : CachedMetadata) (w : World) :
  wf w ->
  lastTrackedDate (settings w) <> currentDate host ->
  tracked (onCacheChange host file cache w).2 = [].
Proof.
  intros Hwf Hdate. now apply (onCacheChange_tracked host file cache w Hwf).
Qed.

(** C2, the code at the failing input: yesterday "Notes/old.md" was tracked;
    today "Notes/A.md" changes, a file that no filter rejects and that is not
    the daily note.  The stored date is updated and the tracked set is
    cleared, but the path of the changed file is pushed onto yesterday's
    array (number 0 in the store) and the tracked set stays empty. *)
Theorem rollover_loses_first_change :
  lastTrackedDate (settings Demo.yesterdayWorld) <> currentDate Demo.host
  /\ sameFile Demo.noteA (Some Demo.today) = false
  /\ cacheContainsIgnoredTag (settings Demo.yesterdayWorld) Demo.workCache = false
  /\ (pathIsExcluded Demo.host (settings Demo.yesterdayWorld) (path Demo.noteA)
        Demo.yesterdayWorld).1 = Return false
  /\ noteTitleContainsIgnoredText (settings Demo.yesterdayWorld) (basename Demo.noteA) = false
  /\ lastTrackedDate
       (settings (onCacheChange Demo.host Demo.noteA Demo.workCache Demo.yesterdayWorld).2)
     = currentDate Demo.host
  /\ tracked (onCacheChange Demo.host Demo.noteA Demo.workCache Demo.yesterdayWorld).2 = []
  /\ deref (heap (onCacheChange Demo.host Demo.noteA Demo.workCache Demo.yesterdayWorld).2) 0
     = ["Notes/old.md"; "Notes/A.md"].
Proof. split; [discriminate|]. repeat split; reflexivity. Qed.

(** *** Delete and rename *)

Lemma deref_elem_of_wf (h : list (list string)) (r : nat) (x : string) :
  x ∈ deref h r -> r < length h.
Proof.
  unfold deref. destruct (h !! r) as [arr|] eqn:E; simpl.
  - intros _. now apply lookup_lt_Some in E.
  - intros H. now apply elem_of_nil in H.
Qed.

(** The tracked set after [onVaultDelete]. *)
Lemma onVaultDelete_tracked (host : Host) (f : TFile) (w : World) :
  tracked (onVaultDelete host (AFile f) w).2 = JS.remove (tracked w) (path f)
  /\ length (heap (onVaultDelete host (AFile f) w).2) = length (heap w)
  /\ trackedFiles (settings (onVaultDelete host (AFile f) w).2) = trackedFiles (settings w).
Proof.
  unfold onVaultDelete. unfoldM. simpl. fold (tracked w).
  destruct (JS.arrIncludes (tracked w) (path f)) eqn:Einc; simpl.
  - apply arrIncludes_true, deref_elem_of_wf in Einc.
    destruct (updateTrackedFiles_tracked host
                (mkWorld (settings w)
                   (<[trackedFiles (settings w) := JS.remove (tracked w) (path f)]> (heap w))
                   (daily w) (calls w))) as (H1 & H2 & H3).
    rewrite H1, H2, H3. simpl. unfold tracked at 1. simpl.
    rewrite deref_insert by exact Einc. now rewrite length_insert.
  - apply arrIncludes_false in Einc. now rewrite remove_absent.
Qed.

(** The tracked set after [onVaultRename] of a file. *)
Lemma onVaultRename_tracked (host : Host) (f : TFile) (oldPath : string) (w : World) :
  tracked (onVaultRename host (AFile f) oldPath w).2
  = (if JS.arrIncludes (tracked w) oldPath
     then JS.push (JS.remove (tracked w) oldPath) (path f)
     else tracked w)
  /\ length (heap (onVaultRename host (AFile f) oldPath w).2) = length (heap w)
  /\ trackedFiles (settings (onVaultRename host (AFile f) oldPath w).2)
     = trackedFiles (settings w).
Proof.
  unfold onVaultRename. unfoldM. simpl. fold (tracked w).
  destruct (JS.arrIncludes (tracked w) oldPath) eqn:Einc; simpl; [|auto].
  apply arrIncludes_true, deref_elem_of_wf in Einc.
  rewrite deref_insert by exact Einc. rewrite list_insert_insert_eq.
  destruct (negb (JS.includes (outputFormat (settings w)) "[[link]]")).
  - match goal with |- context [updateTrackedFiles host ?w0] =>
      destruct (updateTrackedFiles_tracked host w0) as (H1 & H2 & H3)
    end.
    rewrite H1, H2, H3. simpl. unfold tracked at 1. simpl.
    rewrite deref_insert by exact Einc. now rewrite length_insert.
  - simpl. unfold tracked at 1. simpl.
    rewrite deref_insert by exact Einc. now rewrite length_insert.
Qed.

(** C9: when [oldPath] is in the tracked set, [onVaultRename] of a file
    deletes it and appends the new path, which is then the last element, and
    the set has as many elements as before; when [oldPath] is not tracked the
    set is unchanged. *)
Theorem rename_moves_path_to_end (host : Host) (f : TFile) (oldPath : string) (w : World) :
  NoDup (tracked w) ->
  (oldPath ∈ tracked w ->
     tracked (onVaultRename host (AFile f) oldPath w).2
     = JS.remove (tracked w) oldPath ++ [path f]
     /\ (oldPath ∉ JS.remove (tracked w) oldPath)
     /\ last (tracked (onVaultRename host (AFile f) oldPath w).2) = Some (path f)
     /\ length (tracked (onVaultRename host (AFile f) oldPath w).2) = length (tracked w))
  /\ (oldPath ∉ tracked w ->
     tracked (onVaultRename host (AFile f) oldPath w).2 = tracked w).
Proof.
  intros Hnd. destruct (onVaultRename_tracked host f oldPath w) as (Ht & _ & _).
  rewrite Ht. split.
  - intros Hin. rewrite (proj2 (arrIncludes_true _ _) Hin). unfold JS.push.
    split; [reflexivity|]. split; [rewrite remove_elem_of; tauto|].
    split; [apply last_snoc|].
    rewrite length_app. simpl. rewrite <- (remove_length _ _ Hnd Hin). lia.
  - intros Hnin. now rewrite (proj2 (arrIncludes_false _ _) Hnin).
Qed.

Lemma rename_moves_path_to_end_witness :
  tracked (onVaultRename Demo.host (AFile (mkTFile "Notes/C.md" "C" "Notes" 0)) "Notes/A.md"
             Demo.twoNotesWorld).2
  = ["Notes/B.md"; "Notes/C.md"]
  /\ length (tracked (onVaultRename Demo.host (AFile (mkTFile "Notes/C.md" "C" "Notes" 0))
                        "Notes/A.md" Demo.twoNotesWorld).2) = 2.
Proof.
  assert (Hnd : NoDup (tracked Demo.twoNotesWorld)).
  { repeat constructor; rewrite ?elem_of_cons, ?elem_of_nil;
      intros H; repeat destruct H as [H|H]; discriminate || exact H. }
  assert (Hin : "Notes/A.md" ∈ tracked Demo.twoNotesWorld) by left.
  destruct (rename_moves_path_to_end Demo.host (mkTFile "Notes/C.md" "C" "Notes" 0)
              "Notes/A.md" Demo.twoNotesWorld Hnd) as [H _].
  destruct (H Hin) as (H1 & _ & _ & H4). split; [exact H1 | exact H4].
Defined.

(** *** Distinct paths *)

(** Every handler keeps the tracked paths distinct, but for a rename whose
    new path is tracked already. *)
Lemma handle_keeps_distinct (host : Host) (e : Event) (w : World) :
  wf w ->
  NoDup (tracked w) ->
  (forall f oldPath, e = VaultRenamed (AFile f) oldPath ->
     path f ∉ JS.remove (tracked w) oldPath) ->
  wf (handle host e w).2 /\ NoDup (tracked (handle host e w).2).
Proof.
  intros Hwf Hnd Hfresh. destruct e as [file cache|[f|folder]|[f|folder] oldPath|]; cbn [handle].
  - destruct (onCacheChange_tracked host file cache w Hwf) as (Hwf' & Hroll & Hsame).
    split; [exact Hwf'|].
    destruct (String.eqb_spec (lastTrackedDate (settings w)) (currentDate host)) as [E|N].
    + destruct (Hsame E) as [[->|[->|(-> & Hnin & _)]] _].
      * exact Hnd.
      * now apply remove_NoDup.
      * now apply push_NoDup.
    + rewrite (Hroll N). constructor.
  - destruct (onVaultDelete_tracked host f w) as (Ht & Hlen & Hr).
    unfold wf in *. rewrite Ht, Hlen, Hr. split; [exact Hwf | now apply remove_NoDup].
  - now split.
  - destruct (onVaultRename_tracked host f oldPath w) as (Ht & Hlen & Hr).
    unfold wf in *. rewrite Ht, Hlen, Hr. split; [exact Hwf|].
    destruct (JS.arrIncludes (tracked w) oldPath); [|exact Hnd].
    apply push_NoDup; [now apply remove_NoDup | now apply (Hfresh f oldPath)].
  - now split.
  - destruct (updateTrackedFiles_tracked host w) as (Ht & Hlen & Hr).
    unfold wf in *. rewrite Ht, Hlen, Hr. now split.
Qed.

(** A file that no filter rejects, changed twice in a row, is tracked once:
    on the day before and on the same day. *)
Example changed_twice_tracked_once :
  tracked (runEvents Demo.changedTwice Demo.yesterdayWorld) = ["Notes/A.md"]
  /\ tracked (runEvents Demo.changedTwice Demo.twoNotesWorld) = ["Notes/A.md"; "Notes/B.md"].
Proof. split; reflexivity. Qed.

(** C8, the code at the failing input: "Notes/A.md" and "Notes/B.md" are
    tracked, and "Notes/A.md" is renamed to "Notes/B.md".  [onVaultRename]
    pushes the new path without asking whether it is tracked, and the tracked
    set holds "Notes/B.md" twice. *)
Theorem rename_onto_tracked_path_duplicates :
  NoDup (tracked Demo.twoNotesWorld)
  /\ tracked (handle Demo.host (VaultRenamed (AFile Demo.noteB) "Notes/A.md")
                Demo.twoNotesWorld).2
     = ["Notes/B.md"; "Notes/B.md"]
  /\ ~ NoDup (tracked (handle Demo.host (VaultRenamed (AFile Demo.noteB) "Notes/A.md")
                         Demo.twoNotesWorld).2).
Proof.
  split; [|split].
  - repeat constructor; rewrite ?elem_of_cons, ?elem_of_nil;
      intros H; repeat destruct H as [H|H]; discriminate || exact H.
  - reflexivity.
  - change (~ NoDup ["Notes/B.md"; "Notes/B.md"]). rewrite NoDup_cons.
    intros [Hnin _]. apply Hnin. left.
Qed.

(** ** The output formatter *)

(** C3, as the claim states it, fails: in the template
    "- [[name]] / [[name]] [[when]]" only the first "[[name]]" is replaced. *)
Lemma render_leaves_second_occurrence :
  getAbstractFileByPath Demo.host "Notes/A.md" = Some Demo.noteA
  /\ outputFormat (settings Demo.nameTwiceWorld) = "- [[name]] / [[name]] [[when]]"
  /\ (getFormattedOutput Demo.host "Notes/A.md" Demo.nameTwiceWorld).1
     = Return "- A / [[name]] [[when]]".
Proof. repeat split; reflexivity. Qed.

(** C3 (amended): for a path that names a file, with the daily note found,
    [getFormattedOutput] returns the template after four replacements made
    one after the other, each on the text the one before produced: the first
    occurrence of "[[link]]" by the markdown link, then the first occurrence
    of "[[name]]" by the base name, of "[[tags]]" by the tags, each after a
    backslash and joined by ", ", and of "[[ctime]]" by the creation date.
    Each replacement leaves the text before and after that first occurrence
    as it is, so later occurrences of the token and tokens the plugin does
    not know stay; the replacing text is read with the dollar patterns of
    [String.prototype.replace]. *)
Theorem render_replaces_first_occurrences
    (host : Host) (w : World) (p : string) (file note : TFile) :
  getAbstractFileByPath host p = Some file ->
  daily w = Found note ->
  exists s1 s2 s3 out,
    getFormattedOutput host p w = (Return out, w)
    /\ FirstReplaced "[[link]]" (generateMarkdownLink host file (path note))
         (outputFormat (settings w)) s1
    /\ FirstReplaced "[[name]]" (basename file) s1 s2
    /\ FirstReplaced "[[tags]]"
         (JS.join ", " (map (fun tag => "\" +:+ tag) (tagList (getFileCache host file))))
         s2 s3
    /\ FirstReplaced "[[ctime]]" (formatDate host (ctime file)) s3 out.
Proof.
  intros Hfile Hd. unfold getFormattedOutput, getDailyNote. unfoldM. rewrite Hd, Hfile. simpl.
  do 4 eexists. split; [reflexivity|].
  repeat split; apply replace_FirstReplaced.
Qed.

Lemma render_replaces_first_occurrences_witness :
  exists s1 s2 s3 out,
    getFormattedOutput Demo.host "Notes/A.md" Demo.nameTwiceWorld
    = (Return out, Demo.nameTwiceWorld)
    /\ FirstReplaced "[[link]]" "[[A]]" "- [[name]] / [[name]] [[when]]" s1
    /\ FirstReplaced "[[name]]" "A" s1 s2
    /\ FirstReplaced "[[tags]]" "\#work" s2 s3
    /\ FirstReplaced "[[ctime]]" "2024-01-01" s3 out.
Proof.
  exact (render_replaces_first_occurrences Demo.host Demo.nameTwiceWorld "Notes/A.md"
           Demo.noteA Demo.today eq_refl eq_refl).
Defined.

(** ** The write interval *)

Lemma schemaParse_Some (value : string) (n : JS.Num) :
  schemaParse value = Some n <-> JS.parseInt value = n /\ JS.isPositive n = true.
Proof.
  unfold schemaParse. destruct (JS.isPositive (JS.parseInt value)) eqn:E; split.
  - intros [= <-]. now split.
  - now intros [-> _].
  - discriminate.
  - intros [<- H]. congruence.
Qed.

(** A value that the validation refuses: one notice, and the timer runs at
    the default interval. *)
Lemma onload_invalid_interval (default : string) (w : World) :
  schemaParse (writeInterval (settings w)) = None ->
  onload default w
  = (Return tt,
     mkWorld (settings w) (heap w) (daily w)
       (SetInterval (JS.times (JS.parseIntNoRadix default) 1000)
        :: ShowNotice ("[Obsidian List Modified] " +:+ "Invalid write interval. Defaulting to "
                       +:+ default +:+ " seconds.")
        :: calls w)).
Proof. intros H. unfold onload. unfoldM. now rewrite H. Qed.

(** A value that the validation accepts: the timer runs at that interval. *)
Lemma onload_valid_interval (default : string) (w : World) (n : JS.Num) :
  schemaParse (writeInterval (settings w)) = Some n ->
  onload default w
  = (Return tt,
     mkWorld (settings w) (heap w) (daily w) (SetInterval (JS.times n 1000) :: calls w)).
Proof. intros H. unfold onload. unfoldM. now rewrite H. Qed.

(** C6, the code at the failing input: with the write interval "0", the value
    is refused like any invalid one; the notice is shown and the timer is
    set, at the default interval. *)
Theorem zero_interval_still_sets_timer (default : string) (w : World) :
  onload default
    (mkWorld (set_writeInterval "0" (settings w)) (heap w) (daily w) (calls w))
  = (Return tt,
     mkWorld (set_writeInterval "0" (settings w)) (heap w) (daily w)
       (SetInterval (JS.times (JS.parseIntNoRadix default) 1000)
        :: ShowNotice ("[Obsidian List Modified] " +:+ "Invalid write interval. Defaulting to "
                       +:+ default +:+ " seconds.")
        :: calls w)).
Proof. now rewrite onload_invalid_interval. Qed.

(** ** The render, end to end *)

(** A path that names a file is rendered without an exception. *)
Lemma getFormattedOutput_returns (host : Host) (w : World) (p : string) (file note : TFile) :
  getAbstractFileByPath host p = Some file ->
  daily w = Found note ->
  exists out, getFormattedOutput host p w = (Return out, w).
Proof.
  intros Hfile Hd. unfold getFormattedOutput, getDailyNote. unfoldM. rewrite Hd, Hfile. simpl.
  eexists. reflexivity.
Qed.

(** When every tracked path names a file, the entries are rendered one per
    path, in the order of the paths. *)
Lemma mapM_getFormattedOutput_resolved (host : Host) (l : list string) (w : World)
    (note : TFile) :
  daily w = Found note ->
  Forall (fun p => is_Some (getAbstractFileByPath host p)) l ->
  exists entries,
    mapM (getFormattedOutput host) l w = (Return entries, w)
    /\ Forall2 (fun p out => getFormattedOutput host p w = (Return out, w)) l entries.
Proof.
  intros Hd. induction 1 as [|p l [file Hp] _ (entries & Hm & Hall)].
  - exists []. split; [reflexivity | constructor].
  - destruct (getFormattedOutput_returns host w p file note Hp Hd) as (out & Hout).
    exists (out :: entries). split.
    + simpl. unfold mbind, M_bind. rewrite Hout, Hm. reflexivity.
    + now constructor.
Qed.

(** With the note resolved, the heading found and every tracked path naming a
    file, [updateTrackedFiles] writes the document once: the lines of the
    note spliced with one entry per tracked path, joined by line feeds. *)
Lemma updateTrackedFiles_writes_spliced (host : Host) (w : World) (note : TFile)
    (hs : list HeadingCache) :
  resolvedNote host w = Some note ->
  headings (getFileCache host note) = Some hs ->
  heading (settings w) <> EmptyString ->
  (exists h, h ∈ hs /\ heading_text h = heading (settings w)) ->
  Forall (fun p => is_Some (getAbstractFileByPath host p)) (tracked w) ->
  exists w' entries out,
    updateTrackedFiles host w = (Return tt, w')
    /\ Forall2 (fun p entry => (getFormattedOutput host p w').1 = Return entry)
         (tracked w) entries
    /\ spliceManagedRegion (JS.split newline (vaultRead host note)) hs (heading (settings w))
         entries = Some out
    /\ writes (calls w')
       = (path note, JS.join (String newline EmptyString) out) :: writes (calls w).
Proof.
  intros Hnote Hhs Hne Hmatch Hall.
  destruct (updateTrackedFiles_prelude host w) as (w3 & Hrun & Hheap & Hs & Hw & _ & _ & Hd).
  rewrite Hnote in Hrun. rewrite Hrun. clear Hrun.
  specialize (Hd note Hnote).
  assert (Hh : heading (settings w3) = heading (settings w)).
  { rewrite Hs. apply heading_after_backup. }
  assert (Ht : trackedFiles (settings w3) = trackedFiles (settings w)).
  { rewrite Hs. apply trackedFiles_after_backup. }
  unfold renderInto, spliceManagedRegion. unfoldM. simpl. rewrite Hhs, Hh.
  destruct (String.eqb_spec (heading (settings w)) EmptyString) as [E|_]; [contradiction|].
  destruct (findManagedRegion_matches hs (heading (settings w))
              (Z.of_nat (length (JS.split newline (vaultRead host note)))) Hmatch)
    as ([startPos endPos] & ->).
  rewrite Ht, Hheap. unfold tracked in Hall.
  destruct (mapM_getFormattedOutput_resolved host _ w3 note Hd Hall) as (entries & Hm & Hf).
  rewrite Hm. simpl.
  eexists _, entries, _. split; [reflexivity|]. split; [|split; [reflexivity|]].
  - unfold tracked. eapply Forall2_impl; [exact Hf|].
    intros p entry Hp. simpl in *.
    unfold getFormattedOutput, getDailyNote in *. unfoldM. simpl in *.
    rewrite Hd in *. simpl in *.
    destruct (getAbstractFileByPath host p); simpl in *; [|discriminate].
    now injection Hp as <-.
  - simpl. now rewrite Hw.
Qed.

(** The scenario of the specification, end to end: nothing is tracked,
    "Notes/A.md" changes, and the daily note is written with the entry after
    the heading and the old line still before the next heading. *)
Example change_renders_into_daily_note :
  writes (calls (onCacheChange Demo.host Demo.noteA Demo.workCache
                   (Demo.world "2024-01-02" "- [[link]]" "draft" [])).2)
  = [("Daily/2024-01-02.md",
      JS.join Demo.nl ["# Modified"; "- [[A]]"; "old line"; "# Next"])].
Proof. reflexivity. Qed.

(** * Further properties of the handlers *)

(** ** Delete and rename events *)

(** X1: after [onVaultDelete] of a file its path is not tracked, whatever the
    state before; the other paths stay, in their order; a second delete
    event for the same file changes the tracked set no more. *)
Theorem delete_removes_path (host host' : Host) (f : TFile) (w : World) :
  tracked (onVaultDelete host (AFile f) w).2 = JS.remove (tracked w) (path f)
  /\ (path f ∉ tracked (onVaultDelete host (AFile f) w).2)
  /\ (forall q, q <> path f ->
        (q ∈ tracked (onVaultDelete host (AFile f) w).2 <-> q ∈ tracked w))
  /\ tracked (onVaultDelete host' (AFile f) (onVaultDelete host (AFile f) w).2).2
     = tracked (onVaultDelete host (AFile f) w).2.
Proof.
  destruct (onVaultDelete_tracked host f w) as (Ht & _ & _).
  destruct (onVaultDelete_tracked host' f (onVaultDelete host (AFile f) w).2) as (Ht' & _ & _).
  assert (Hnin : path f ∉ JS.remove (tracked w) (path f)) by (rewrite remove_elem_of; tauto).
  rewrite Ht', Ht. repeat split.
  - exact Hnin.
  - rewrite remove_elem_of. tauto.
  - rewrite remove_elem_of. tauto.
  - now apply remove_absent.
Qed.

(** X2: an event about a path that is not tracked changes nothing: the delete
    of such a file and the rename from such a path return with the state as
    it was, without saving the settings and without a render. *)
Theorem untracked_path_events_change_nothing (host : Host) (p : string) (w : World) :
  p ∉ tracked w ->
  (forall f, path f = p -> onVaultDelete host (AFile f) w = (Return tt, w))
  /\ (forall file, onVaultRename host file p w = (Return tt, w)).
Proof.
  intros Hnin. apply arrIncludes_false in Hnin. split.
  - intros f <-. unfold onVaultDelete. unfoldM. simpl. fold (tracked w). now rewrite Hnin.
  - intros [f|folder]; [|reflexivity].
    unfold onVaultRename. unfoldM. simpl. fold (tracked w). now rewrite Hnin.
Qed.

Lemma untracked_path_events_change_nothing_witness :
  onVaultDelete Demo.host (AFile Demo.archived) Demo.twoNotesWorld
  = (Return tt, Demo.twoNotesWorld)
  /\ onVaultRename Demo.host (AFile Demo.noteA) "Archive/Sub/x.md" Demo.twoNotesWorld
     = (Return tt, Demo.twoNotesWorld).
Proof.
  assert (Hnin : "Archive/Sub/x.md" ∉ tracked Demo.twoNotesWorld).
  { apply arrIncludes_false. reflexivity. }
  destruct (untracked_path_events_change_nothing Demo.host "Archive/Sub/x.md"
              Demo.twoNotesWorld Hnin) as [H1 H2].
  split; [apply (H1 Demo.archived eq_refl) | apply H2].
Defined.

(** X3: when the old path is tracked and the template has the token
    "[[link]]", [onVaultRename] of a file only saves the settings: the one
    host call it adds is [saveData]; the daily note is not written. *)
Theorem rename_with_link_template_only_saves
    (host : Host) (f : TFile) (oldPath : string) (w : World) :
  oldPath ∈ tracked w ->
  JS.includes (outputFormat (settings w)) "[[link]]" = true ->
  (onVaultRename host (AFile f) oldPath w).1 = Return tt
  /\ calls (onVaultRename host (AFile f) oldPath w).2 = SaveData :: calls w.
Proof.
  intros Hin Hlink. apply arrIncludes_true in Hin.
  unfold onVaultRename. unfoldM. simpl. fold (tracked w). rewrite Hin, Hlink. simpl.
  now split.
Qed.

Lemma rename_with_link_template_only_saves_witness :
  (onVaultRename Demo.host (AFile Demo.archived) "Notes/A.md" Demo.twoNotesWorld).1 = Return tt
  /\ calls (onVaultRename Demo.host (AFile Demo.archived) "Notes/A.md" Demo.twoNotesWorld).2
     = SaveData :: calls Demo.twoNotesWorld.
Proof.
  apply (rename_with_link_template_only_saves Demo.host Demo.archived "Notes/A.md"
           Demo.twoNotesWorld).
  - left.
  - reflexivity.
Defined.

(** ** Changes of the daily note *)

(** X4: a change of the daily note itself is not tracked and starts no
    render: [onCacheChange] returns after the rollover, no host call is
    issued, and on the same day the state is the one before. *)
Theorem daily_note_change_is_silent
    (host : Host) (file note : TFile) (cache : CachedMetadata) (w : World) :
  daily w = Found note ->
  path file = path note ->
  (onCacheChange host file cache w).1 = Return tt
  /\ calls (onCacheChange host file cache w).2 = calls w
  /\ (lastTrackedDate (settings w) = currentDate host ->
      (onCacheChange host file cache w).2 = w).
Proof.
  intros Hd Hp. rewrite onCacheChange_steps, rollover_run, Hd. simpl.
  rewrite Hp, String.eqb_refl. simpl. split; [reflexivity|]. split.
  - now destruct (String.eqb _ _).
  - intros E. now rewrite (proj2 (String.eqb_eq _ _) E).
Qed.

Lemma daily_note_change_is_silent_witness :
  (onCacheChange Demo.host Demo.today Demo.workCache Demo.twoNotesWorld).1 = Return tt
  /\ calls (onCacheChange Demo.host Demo.today Demo.workCache Demo.twoNotesWorld).2
     = calls Demo.twoNotesWorld.
Proof.
  destruct (daily_note_change_is_silent Demo.host Demo.today Demo.today Demo.workCache
              Demo.twoNotesWorld eq_refl eq_refl) as (H1 & H2 & _).
  split; [exact H1 | exact H2].
Defined.

(** ** The stored date *)

Lemma updateMembership_settings (host : Host) (r : nat) (file : TFile)
    (cache : CachedMetadata) (w : World) :
  settings (updateMembership host r file cache w).2 = settings w.
Proof.
  revert w. change (keeps (fun w w' => settings w' = settings w)
                      (updateMembership host r file cache)).
  unfold updateMembership. cbv zeta.
  repeat
    match goal with
    | |- keeps _ (mbind _ _) =>
        apply keeps_bind; [intros ? ? ? H1 H2; now rewrite H2, H1 | | intros ?]
    | |- keeps _ (if ?b then _ else _) => destruct b
    | |- keeps _ (pathIsExcluded _ _ _) =>
        intros w; now rewrite pathIsExcluded_world
    | |- keeps _ _ => intros w; reflexivity
    end.
Qed.

Lemma updateTrackedFiles_date (host : Host) (w : World) :
  lastTrackedDate (settings (updateTrackedFiles host w).2) = lastTrackedDate (settings w).
Proof.
  revert w. change (keeps (fun w w' => lastTrackedDate (settings w')
                                          = lastTrackedDate (settings w))
                      (updateTrackedFiles host)).
  apply keeps_updateTrackedFiles.
  - reflexivity.
  - intros a b c H1 H2. now rewrite H2, H1.
  - intros c _ w. reflexivity.
  - intros d w. reflexivity.
  - intros d w. unfold backupOnce. unfoldM. simpl.
    destruct d as [note|]; [|reflexivity].
    now destruct (hasBeenBackedUp (settings w)).
Qed.

(** X5: after [onCacheChange] the stored date is the current date, however
    the handler ends: with a return before the membership update, with an
    exception, or after the render. *)
Theorem cache_change_stores_current_date
    (host : Host) (file : TFile) (cache : CachedMetadata) (w : World) :
  lastTrackedDate (settings (onCacheChange host file cache w).2) = currentDate host.
Proof.
  rewrite onCacheChange_steps.
  assert (Hroll : lastTrackedDate (settings (rollover (currentDate host) w).2)
                  = currentDate host).
  { rewrite rollover_run. simpl.
    destruct (String.eqb_spec (lastTrackedDate (settings w)) (currentDate host)); auto. }
  assert (Hupd : lastTrackedDate
                   (settings
                      match updateMembership host (trackedFiles (settings w)) file cache
                              (rollover (currentDate host) w).2 with
                      | (Return _, w2) => updateTrackedFiles host w2
                      | (Throw e, w2) => (Throw e, w2)
                      end.2) = currentDate host).
  { pose proof (updateMembership_settings host (trackedFiles (settings w)) file cache
                  (rollover (currentDate host) w).2) as Hs.
    destruct (updateMembership _ _ _ _ _) as [[[]|e] w2]; simpl in *.
    - now rewrite updateTrackedFiles_date, Hs.
    - now rewrite Hs. }
  destruct (daily w) as [note| |message]; simpl; [| exact Hupd | exact Hroll].
  destruct (String.eqb (path file) (path note)); [exact Hroll | exact Hupd].
Qed.

(** ** What a render changes *)

(** X6: [updateTrackedFiles] changes no array of the store and no setting but
    the backup flag, and that one only from unset to set, in a run in which
    the lookup finds the daily note. *)
Theorem render_changes_only_backup_flag (host : Host) (w : World) :
  heap (updateTrackedFiles host w).2 = heap w
  /\ settings (updateTrackedFiles host w).2
     = match daily w with
       | Found _ =>
           if hasBeenBackedUp (settings w) then settings w
           else set_hasBeenBackedUp true (settings w)
       | Absent | Fails _ => settings w
       end.
Proof.
  destruct (updateTrackedFiles_prelude host w) as (w3 & Hrun & Hheap & Hs & _).
  assert (H3 : settings w3
               = match daily w with
                 | Found _ =>
                     if hasBeenBackedUp (settings w) then settings w
                     else set_hasBeenBackedUp true (settings w)
                 | Absent | Fails _ => settings w
                 end).
  { rewrite Hs. unfold backupCalls. destruct (daily w); [|reflexivity..].
    now destruct (hasBeenBackedUp (settings w)). }
  rewrite Hrun. destruct (resolvedNote host w) as [note|]; simpl; [|now split].
  destruct (renderInto_calls host note w3) as (cs & -> & _). simpl. now split.
Qed.

(** X7: when no daily note is resolved (the lookup finds none or throws, and
    none is created), [updateTrackedFiles] returns without an exception, the
    document is not written, no backup is made, and the settings and the
    arrays are as before. *)
Theorem unresolved_note_skips_render (host : Host) (w : World) :
  resolvedNote host w = None ->
  (updateTrackedFiles host w).1 = Return tt
  /\ writes (calls (updateTrackedFiles host w).2) = writes (calls w)
  /\ copies (calls (updateTrackedFiles host w).2) = copies (calls w)
  /\ settings (updateTrackedFiles host w).2 = settings w
  /\ heap (updateTrackedFiles host w).2 = heap w.
Proof.
  intros Hnone.
  destruct (updateTrackedFiles_prelude host w) as (w3 & Hrun & Hheap & Hs & Hw & Hc & _).
  rewrite Hnone in Hrun. rewrite Hrun. simpl.
  assert (Hb : backupCalls host w = []).
  { unfold backupCalls. unfold resolvedNote in Hnone. now destruct (daily w). }
  rewrite Hb in Hs, Hc. auto.
Qed.

Lemma unresolved_note_skips_render_witness :
  (updateTrackedFiles Demo.host
     (mkWorld (settings Demo.twoNotesWorld) (heap Demo.twoNotesWorld) Absent [])).1
  = Return tt
  /\ writes (calls (updateTrackedFiles Demo.host
       (mkWorld (settings Demo.twoNotesWorld) (heap Demo.twoNotesWorld) Absent [])).2) = [].
Proof.
  destruct (unresolved_note_skips_render Demo.host
              (mkWorld (settings Demo.twoNotesWorld) (heap Demo.twoNotesWorld) Absent [])
              eq_refl) as (H1 & H2 & _).
  split; [exact H1 | exact H2].
Defined.

(** X8: when the lookup finds no daily note, creation is switched on and the
    helper creates the note, [updateTrackedFiles] asks for the creation
    once, makes no backup in that run and leaves the backup flag as it was;
    afterwards the lookup finds the created note. *)
Theorem missing_note_is_created_once (host : Host) (w : World) (note : TFile) :
  daily w = Absent ->
  automaticallyCreateDailyNote (settings w) = true ->
  createdDailyNote host = Some note ->
  creations (calls (updateTrackedFiles host w).2) = CreateDailyNote :: creations (calls w)
  /\ hasBeenBackedUp (settings (updateTrackedFiles host w).2) = hasBeenBackedUp (settings w)
  /\ daily (updateTrackedFiles host w).2 = Found note.
Proof.
  intros Hd Hauto Hnew.
  assert (Hrun : exists w3,
             updateTrackedFiles host w = renderInto host note w3
             /\ settings w3 = settings w /\ daily w3 = Found note
             /\ creations (calls w3) = CreateDailyNote :: creations (calls w)).
  { destruct w as [s h d cs]. simpl in *. subst d.
    unfold updateTrackedFiles, resolveDailyNote, backupOnce, createIfMissing, createDailyNote.
    unfoldM. simpl. rewrite Hauto. simpl. rewrite Hnew. simpl.
    eexists. split; [reflexivity|]. simpl. auto. }
  destruct Hrun as (w3 & -> & Hs & Hd3 & Hc).
  destruct (renderInto_calls host note w3) as (cs & -> & Hcs). simpl.
  rewrite Hs. split; [|now split].
  destruct Hcs as [->|[(m & ->)|(content & ->)]]; simpl; exact Hc.
Qed.

Lemma missing_note_is_created_once_witness :
  creations (calls (updateTrackedFiles Demo.creatingHost Demo.noNoteWorld).2)
  = [CreateDailyNote]
  /\ daily (updateTrackedFiles Demo.creatingHost Demo.noNoteWorld).2 = Found Demo.today.
Proof.
  destruct (missing_note_is_created_once Demo.creatingHost Demo.noNoteWorld Demo.today
              eq_refl eq_refl eq_refl) as (H1 & _ & H3).
  split; [exact H1 | exact H3].
Defined.

(** ** The membership rules *)

(** The membership update for a file that no filter rejects. *)
Lemma updateMembership_accepts (host : Host) (r : nat) (file : TFile)
    (cache : CachedMetadata) (w : World) :
  r < length (heap w) ->
  cacheContainsIgnoredTag (settings w) cache = false ->
  noteTitleContainsIgnoredText (settings w) (basename file) = false ->
  (pathIsExcluded host (settings w) (path file) w).1 = Return false ->
  updateMembership host r file cache w
  = (Return tt,
     mkWorld (settings w)
       (<[r := if JS.arrIncludes (deref (heap w) r) (path file)
               then deref (heap w) r
               else JS.push (deref (heap w) r) (path file)]> (heap w))
       (daily w) (calls w)).
Proof.
  intros Hr Htag Htitle Hex. destruct w as [s h d cs]. simpl in *.
  destruct (pathIsExcluded_run host s (path file)) as (o & Ho & _).
  rewrite Ho in Hex. simpl in Hex. subst o.
  unfold updateMembership. unfoldM. simpl. rewrite Htag, Htitle.
  destruct (JS.arrIncludes (deref h r) (path file)) eqn:Einc; simpl.
  - rewrite Einc. simpl. rewrite Ho. now rewrite insert_deref.
  - rewrite Ho. simpl. rewrite deref_insert by exact Hr.
    rewrite arrIncludes_push. simpl. now rewrite Ho.
Qed.

(** The membership update for a file with an ignored tag or in an excluded
    folder. *)
Lemma updateMembership_rejects (host : Host) (r : nat) (file : TFile)
    (cache : CachedMetadata) (w : World) :
  r < length (heap w) ->
  cacheContainsIgnoredTag (settings w) cache = true
  \/ (pathIsExcluded host (settings w) (path file) w).1 = Return true ->
  exists o,
    updateMembership host r file cache w
    = (o, mkWorld (settings w)
            (<[r := JS.remove (deref (heap w) r) (path file)]> (heap w))
            (daily w) (calls w)).
Proof.
  intros Hr Hrej. destruct w as [s h d cs]. simpl in *.
  destruct (pathIsExcluded_run host s (path file)) as (o & Ho & _).
  rewrite Ho in Hrej. simpl in Hrej.
  unfold updateMembership. unfoldM. simpl.
  set (arr := deref h r) in *. set (p := path file) in *.
  assert (Habsent : JS.arrIncludes arr p = false ->
                    forall o' : Outcome unit,
                      (o', mkWorld s h d cs)
                      = (o', mkWorld s (<[r := JS.remove arr p]> h) d cs)).
  { intros Hinc o'. apply arrIncludes_false in Hinc.
    rewrite remove_absent by exact Hinc. subst arr. now rewrite insert_deref. }
  destruct (JS.arrIncludes arr p) eqn:Einc; simpl.
  - fold arr. rewrite Einc.
    destruct (cacheContainsIgnoredTag s cache) eqn:Etag; simpl; [eexists; reflexivity|].
    destruct Hrej as [Hrej|Hrej]; [discriminate|]. subst o. rewrite Ho.
    eexists; reflexivity.
  - destruct (cacheContainsIgnoredTag s cache) eqn:Etag; simpl.
    + fold arr. rewrite Einc. simpl. rewrite Ho.
      destruct o as [[|]|e]; [eexists; reflexivity | | eexists; now apply Habsent].
      destruct (noteTitleContainsIgnoredText s (basename file));
        [eexists; reflexivity | eexists; now apply Habsent].
    + destruct Hrej as [Hrej|Hrej]; [discriminate|]. subst o. rewrite Ho. simpl.
      fold arr. rewrite Einc. simpl. rewrite Ho. eexists; reflexivity.
Qed.

(** The state in which the membership update of [onCacheChange] runs, on the
    day of the stored date. *)
Lemma onCacheChange_same_day (host : Host) (file : TFile) (cache : CachedMetadata)
    (w : World) :
  lastTrackedDate (settings w) = currentDate host ->
  lookupLetsPass w file ->
  onCacheChange host file cache w
  = match updateMembership host (trackedFiles (settings w)) file cache w with
    | (Return _, w2) => updateTrackedFiles host w2
    | (Throw e, w2) => (Throw e, w2)
    end.
Proof.
  intros Edate Hd. unfold lookupLetsPass in Hd. rewrite onCacheChange_steps, rollover_run.
  rewrite (proj2 (String.eqb_eq _ _) Edate). simpl.
  destruct (daily w) as [note| |message]; simpl; [|reflexivity|contradiction].
  now rewrite (proj2 (String.eqb_neq _ _) Hd).
Qed.

(** X9: on the day of the stored date, when the lookup of the daily note
    does not throw and the changed file is not the note it finds, a change of
    a file that no filter rejects (no ignored tag, [pathIsExcluded] returns
    false, title not ignored) appends its path to the tracked set when it is
    not there, and leaves the set as it is when it is. *)
Theorem accepted_change_appends_once
    (host : Host) (file : TFile) (cache : CachedMetadata) (w : World) :
  wf w ->
  lastTrackedDate (settings w) = currentDate host ->
  lookupLetsPass w file ->
  cacheContainsIgnoredTag (settings w) cache = false ->
  noteTitleContainsIgnoredText (settings w) (basename file) = false ->
  (pathIsExcluded host (settings w) (path file) w).1 = Return false ->
  (path file ∈ tracked w ->
     tracked (onCacheChange host file cache w).2 = tracked w)
  /\ (path file ∉ tracked w ->
     tracked (onCacheChange host file cache w).2 = tracked w ++ [path file]).
Proof.
  intros Hwf Edate Hruns Htag Htitle Hex. unfold wf in Hwf.
  assert (Ht : tracked (onCacheChange host file cache w).2
               = if JS.arrIncludes (tracked w) (path file) then tracked w
                 else JS.push (tracked w) (path file)).
  { rewrite (onCacheChange_same_day host file cache w Edate Hruns).
    rewrite (updateMembership_accepts host _ file cache w Hwf Htag Htitle Hex).
    match goal with |- context [updateTrackedFiles host ?w0] =>
      destruct (updateTrackedFiles_tracked host w0) as (-> & _ & _)
    end.
    unfold tracked at 1. simpl. now rewrite deref_insert by exact Hwf. }
  rewrite Ht. split.
  - intros Hin. now rewrite (proj2 (arrIncludes_true _ _) Hin).
  - intros Hnin. now rewrite (proj2 (arrIncludes_false _ _) Hnin).
Qed.

(** X10: on the day of the stored date, when the lookup of the daily note
    does not throw and the changed file is not the note it finds, a change of
    a file that has an ignored tag, or for which [pathIsExcluded] returns
    true, leaves the tracked set without its path and with the other paths
    in their order. *)
Theorem rejected_change_removes
    (host : Host) (file : TFile) (cache : CachedMetadata) (w : World) :
  wf w ->
  lastTrackedDate (settings w) = currentDate host ->
  lookupLetsPass w file ->
  cacheContainsIgnoredTag (settings w) cache = true
  \/ (pathIsExcluded host (settings w) (path file) w).1 = Return true ->
  tracked (onCacheChange host file cache w).2 = JS.remove (tracked w) (path file)
  /\ (path file ∉ tracked (onCacheChange host file cache w).2).
Proof.
  intros Hwf Edate Hruns Hrej. unfold wf in Hwf.
  assert (Ht : tracked (onCacheChange host file cache w).2
               = JS.remove (tracked w) (path file)).
  { rewrite (onCacheChange_same_day host file cache w Edate Hruns).
    destruct (updateMembership_rejects host _ file cache w Hwf Hrej) as (o & ->).
    destruct o as [[]|e].
    - match goal with |- context [updateTrackedFiles host ?w0] =>
        destruct (updateTrackedFiles_tracked host w0) as (-> & _ & _)
      end.
      unfold tracked at 1. simpl. now rewrite deref_insert by exact Hwf.
    - unfold tracked at 1. simpl. now rewrite deref_insert by exact Hwf. }
  split; [exact Ht|]. rewrite Ht, remove_elem_of. tauto.
Qed.

Lemma accepted_change_appends_once_witness :
  tracked (onCacheChange Demo.host Demo.archived Demo.workCache Demo.twoNotesWorld).2
  = ["Notes/A.md"; "Notes/B.md"; "Archive/Sub/x.md"].
Proof.
  assert (Hwf : wf Demo.twoNotesWorld) by (unfold wf; simpl; lia).
  assert (Hruns : lookupLetsPass Demo.twoNotesWorld Demo.archived) by discriminate.
  assert (Hnin : path Demo.archived ∉ tracked Demo.twoNotesWorld).
  { apply arrIncludes_false. reflexivity. }
  destruct (accepted_change_appends_once Demo.host Demo.archived Demo.workCache
              Demo.twoNotesWorld Hwf eq_refl Hruns eq_refl eq_refl eq_refl) as [_ H].
  exact (H Hnin).
Defined.

Lemma rejected_change_removes_witness :
  tracked (onCacheChange Demo.host Demo.noteA (mkCache ["#daily"; "#work"] None)
             Demo.filteredWorld).2
  = ["Notes/B.md"].
Proof.
  assert (Hwf : wf Demo.filteredWorld) by (unfold wf; simpl; lia).
  assert (Hruns : lookupLetsPass Demo.filteredWorld Demo.noteA) by discriminate.
  destruct (rejected_change_removes Demo.host Demo.noteA (mkCache ["#daily"; "#work"] None)
              Demo.filteredWorld Hwf eq_refl Hruns (or_introl eq_refl)) as [H _].
  exact H.
Defined.

(** ** Sequences of events *)

(** X11: through every sequence of events in which no file is renamed
    (changes, deletes, renames of folders, renders), a tracked set of
    distinct paths stays a set of distinct paths. *)
Theorem events_without_rename_keep_distinct (es : list (Host * Event)) (w : World) :
  wf w ->
  NoDup (tracked w) ->
  Forall (fun he => forall f oldPath, he.2 <> VaultRenamed (AFile f) oldPath) es ->
  NoDup (tracked (runEvents es w)).
Proof.
  intros Hwf Hnd Hes. revert w Hwf Hnd.
  induction Hes as [|[host e] es He _ IH]; intros w Hwf Hnd; simpl; [exact Hnd|].
  destruct (handle_keeps_distinct host e w Hwf Hnd) as [Hwf' Hnd'].
  - intros f oldPath Heq. now destruct (He f oldPath).
  - now apply IH.
Qed.

Lemma events_without_rename_keep_distinct_witness :
  NoDup (tracked (runEvents Demo.changedTwice Demo.twoNotesWorld)).
Proof.
  apply events_without_rename_keep_distinct.
  - unfold wf. simpl. lia.
  - repeat constructor; rewrite ?elem_of_cons, ?elem_of_nil;
      intros H; repeat destruct H as [H|H]; discriminate || exact H.
  - repeat constructor; intros f oldPath; discriminate.
Defined.

(** ** Templates without tokens *)

Lemma replace_absent (s pat repl : string) :
  JS.includes s pat = false -> JS.replace s pat repl = s.
Proof.
  unfold JS.includes, JS.replace.
  now destruct (JS.splitFirst pat s) as [[a b]|].
Qed.

(** X12: a template in which none of the four tokens occurs is rendered as it
    is, for every file. *)
Theorem template_without_tokens_is_verbatim
    (host : Host) (w : World) (p : string) (file note : TFile) :
  getAbstractFileByPath host p = Some file ->
  daily w = Found note ->
  JS.includes (outputFormat (settings w)) "[[link]]" = false ->
  JS.includes (outputFormat (settings w)) "[[name]]" = false ->
  JS.includes (outputFormat (settings w)) "[[tags]]" = false ->
  JS.includes (outputFormat (settings w)) "[[ctime]]" = false ->
  getFormattedOutput host p w = (Return (outputFormat (settings w)), w).
Proof.
  intros Hfile Hd H1 H2 H3 H4.
  unfold getFormattedOutput, getDailyNote. unfoldM. rewrite Hd, Hfile. simpl.
  now rewrite (replace_absent _ _ _ H1), (replace_absent _ _ _ H2),
    (replace_absent _ _ _ H3), (replace_absent _ _ _ H4).
Qed.

Lemma template_without_tokens_is_verbatim_witness :
  getFormattedOutput Demo.host "Notes/A.md"
    (Demo.world "2024-01-02" "- [ ] changed [[today]]" "draft" [])
  = (Return "- [ ] changed [[today]]",
     Demo.world "2024-01-02" "- [ ] changed [[today]]" "draft" []).
Proof.
  exact (template_without_tokens_is_verbatim Demo.host
           (Demo.world "2024-01-02" "- [ ] changed [[today]]" "draft" [])
           "Notes/A.md" Demo.noteA Demo.today eq_refl eq_refl eq_refl eq_refl eq_refl eq_refl).
Defined.

(** ** Comma-separated settings *)

Lemma split_nonempty (sep : ascii) (s : string) : JS.split sep s <> [].
Proof.
  destruct s as [|c s]; simpl; [discriminate|].
  destruct (Ascii.eqb c sep); [discriminate|].
  destruct (JS.split sep s); discriminate.
Qed.

(** Splitting distributes over a separator. *)
Lemma split_app_sep (sep : ascii) (s t : string) :
  JS.split sep (s +:+ String sep t) = JS.split sep s ++ JS.split sep t.
Proof.
  induction s as [|c s IH].
  - rewrite append_nil_l. simpl. now rewrite Ascii.eqb_refl.
  - rewrite append_String. simpl. rewrite IH.
    destruct (Ascii.eqb c sep); [reflexivity|].
    pose proof (split_nonempty sep s) as Hne.
    now destruct (JS.split sep s).
Qed.

(** A string without the separator is one entry. *)
Lemma split_no_sep (sep : ascii) (s : string) :
  (forall a b, s <> a +:+ String sep b) -> JS.split sep s = [s].
Proof.
  induction s as [|c s IH]; intros H; [reflexivity|]. simpl.
  destruct (Ascii.eqb_spec c sep) as [->|Hne].
  - now destruct (H EmptyString s).
  - rewrite IH; [reflexivity|]. intros a b ->. now destruct (H (String c a) b).
Qed.

Lemma removeWhiteSpace_app (a b : string) :
  JS.removeWhiteSpace (a +:+ b) = JS.removeWhiteSpace a +:+ JS.removeWhiteSpace b.
Proof.
  induction a as [|c a IH]; [reflexivity|].
  rewrite append_String. simpl. rewrite IH. now destruct (JS.isWhiteSpace c).
Qed.

(** A character of the text without white space comes from the text. *)
Lemma removeWhiteSpace_occurs (e a b : string) (c : ascii) :
  JS.removeWhiteSpace e = a +:+ String c b -> exists a' b', e = a' +:+ String c b'.
Proof.
  revert a. induction e as [|x e IH]; intros a; simpl.
  - destruct a; discriminate.
  - destruct (JS.isWhiteSpace x).
    + intros H. destruct (IH a H) as (a' & b' & ->). now exists (String x a'), b'.
    + destruct a as [|y a].
      * rewrite append_nil_l. intros [= -> _]. now exists EmptyString, e.
      * rewrite append_String. intros [= _ H].
        destruct (IH a H) as (a' & b' & ->). now exists (String x a'), b'.
Qed.

Lemma includes_comma_false (s : string) :
  JS.includes s "," = false <-> forall a b, s <> a +:+ String "," b.
Proof. apply includes_false. Qed.

(** X13: when the setting [ignoredNameContains] ends with a comma (white
    space may follow it), the list of ignored texts has an empty entry and
    every title counts as ignored. *)
Theorem trailing_comma_ignores_every_title (s : Settings) (e t title : string) :
  ignoredNameContains s = e +:+ String "," t ->
  JS.removeWhiteSpace t = EmptyString ->
  noteTitleContainsIgnoredText s title = true.
Proof.
  intros He Ht. unfold noteTitleContainsIgnoredText.
  rewrite He, removeWhiteSpace_app. simpl JS.removeWhiteSpace at 2.
  change (JS.isWhiteSpace ",") with false. cbv iota. rewrite Ht, split_app_sep.
  rewrite existsb_app. apply orb_true_iff. right. simpl.
  now rewrite includes_empty.
Qed.

Lemma trailing_comma_ignores_every_title_witness :
  noteTitleContainsIgnoredText
    (mkSettings 0 "2024-01-02" "Modified" "- [[link]]" EmptyString EmptyString
       "draft, " false true "30")
    "Minutes"
  = true.
Proof.
  apply (trailing_comma_ignores_every_title _ "draft" " " "Minutes"); reflexivity.
Defined.

(** X14: when the setting [tags] has no comma, it is one ignored tag: a file
    counts as having an ignored tag exactly when one of its tags is the
    setting with its white space deleted, letter case and all.  With the
    empty setting that tag is the empty string. *)
Theorem single_ignored_tag_is_matched_exactly (s : Settings) (cache : CachedMetadata) :
  JS.includes (tags s) "," = false ->
  cacheContainsIgnoredTag s cache = JS.arrIncludes (tagList cache) (JS.removeWhiteSpace (tags s)).
Proof.
  intros H. unfold cacheContainsIgnoredTag. rewrite split_no_sep.
  - simpl. apply orb_false_r.
  - intros a b Hab. apply removeWhiteSpace_occurs in Hab as (a' & b' & Hab).
    rewrite includes_comma_false in H. now destruct (H a' b').
Qed.

Lemma single_ignored_tag_is_matched_exactly_witness :
  cacheContainsIgnoredTag Demo.filtered (mkCache ["#Daily"; "#work"] None)
  = JS.arrIncludes ["#Daily"; "#work"] "#daily".
Proof.
  exact (single_ignored_tag_is_matched_exactly Demo.filtered
           (mkCache ["#Daily"; "#work"] None) eq_refl).
Defined.

(** *** Excluded folders *)

Lemma skipWhiteSpace_suffix (s : string) : exists pre, s = pre +:+ JS.skipWhiteSpace s.
Proof.
  induction s as [|c s (pre & IH)]; [now exists EmptyString|]. simpl.
  destruct (JS.isWhiteSpace c).
  - exists (String c pre). rewrite append_String. now rewrite <- IH.
  - now exists EmptyString.
Qed.

Lemma matchCommaSpace_no_comma (s : string) :
  (forall a b, s <> a +:+ String "," b) -> matchCommaSpace s = None.
Proof.
  intros H. unfold matchCommaSpace.
  destruct (skipWhiteSpace_suffix s) as (pre & Hs).
  destruct (JS.skipWhiteSpace s) as [|c r]; [reflexivity|].
  destruct (Ascii.eqb_spec c ",") as [->|Hne].
  - now destruct (H pre r).
  - destruct c as [[] [] [] [] [] [] [] []]; try reflexivity. now destruct Hne.
Qed.

Lemma matchSpaceComma_no_comma (s : string) :
  (forall a b, s <> a +:+ String "," b) -> matchSpaceComma s = None.
Proof.
  intros H. unfold matchSpaceComma. destruct s as [|c s]; [reflexivity|].
  destruct (Ascii.eqb_spec c " ") as [->|Hne].
  - destruct (skipWhiteSpace_suffix s) as (pre & Hs).
    destruct (JS.skipWhiteSpace s) as [|c r]; [reflexivity|].
    destruct (Ascii.eqb_spec c ",") as [->|Hne].
    + destruct (H (String " " pre) r). rewrite append_String. now rewrite <- Hs.
    + destruct c as [[] [] [] [] [] [] [] []]; try reflexivity. now destruct Hne.
  - destruct c as [[] [] [] [] [] [] [] []]; try reflexivity. now destruct Hne.
Qed.

Lemma replaceFirstSeparator_no_comma (s : string) :
  (forall a b, s <> a +:+ String "," b) -> replaceFirstSeparator s = s.
Proof.
  induction s as [|c s IH]; intros H; [reflexivity|].
  assert (Hs : forall a b, s <> a +:+ String "," b).
  { intros a b ->. now destruct (H (String c a) b). }
  change (replaceFirstSeparator (String c s))
    with (match matchCommaSpace (String c s) with
          | Some r => String "," r
          | None =>
              match matchSpaceComma (String c s) with
              | Some r => String "," r
              | None => String c (replaceFirstSeparator s)
              end
          end).
  rewrite matchCommaSpace_no_comma, matchSpaceComma_no_comma by exact H.
  now rewrite IH.
Qed.

Lemma startsWith_app (p rest : string) : JS.startsWith (p +:+ rest) p = true.
Proof.
  unfold JS.startsWith.
  now rewrite (proj2 (stripPrefix_Some p (p +:+ rest) rest) eq_refl).
Qed.

(** X15: when the setting [excludedFolders] is not empty and has no comma, it
    is one folder: for a path that names a file, [pathIsExcluded] answers
    whether the path of the file's folder starts with the setting, a slash at
    its start and at its end deleted; so every folder whose path begins with
    those characters is excluded, a sub-folder or not.  For a path that names
    no file it throws. *)
Theorem single_excluded_folder_is_a_prefix
    (host : Host) (s : Settings) (p : string) (w : World) :
  excludedFolders s <> EmptyString ->
  JS.includes (excludedFolders s) "," = false ->
  pathIsExcluded host s p w
  = match getAbstractFileByPath host p with
    | Some f => (Return (JS.startsWith (parent_path f) (stripSlashes (excludedFolders s))), w)
    | None => (Throw TypeError, w)
    end
  /\ forall f rest,
      getAbstractFileByPath host p = Some f ->
      parent_path f = stripSlashes (excludedFolders s) +:+ rest ->
      pathIsExcluded host s p w = (Return true, w).
Proof.
  intros Hne Hcomma. rewrite includes_comma_false in Hcomma.
  assert (Hrun : pathIsExcluded host s p w
                 = match getAbstractFileByPath host p with
                   | Some f =>
                       (Return (JS.startsWith (parent_path f)
                                  (stripSlashes (excludedFolders s))), w)
                   | None => (Throw TypeError, w)
                   end).
  { unfold pathIsExcluded.
    rewrite (proj2 (String.eqb_neq _ _) Hne).
    rewrite replaceFirstSeparator_no_comma, split_no_sep by exact Hcomma.
    destruct (getAbstractFileByPath host p) as [f|]; [|reflexivity].
    simpl. now rewrite orb_false_r. }
  split; [exact Hrun|].
  intros f rest Hf Hp. rewrite Hrun, Hf, Hp. now rewrite startsWith_app.
Qed.

Lemma single_excluded_folder_is_a_prefix_witness :
  pathIsExcluded Demo.host Demo.filtered "Archive/Sub/x.md" Demo.filteredWorld
  = (Return true, Demo.filteredWorld).
Proof.
  assert (Hne : excludedFolders Demo.filtered <> EmptyString) by discriminate.
  destruct (single_excluded_folder_is_a_prefix Demo.host Demo.filtered "Archive/Sub/x.md"
              Demo.filteredWorld Hne eq_refl) as [_ H].
  exact (H Demo.archived "/Sub" eq_refl eq_refl).
Defined.

(** ** The write interval, in full *)

(** X16: [onload] never throws and sets the timer exactly once.  When the
    stored write interval, read by [parseInt] in base 10, is positive, the
    timer runs at that number times 1000 and nothing is shown; otherwise
    (NaN, zero, negative) one notice is shown and the timer runs at the
    default, read by [parseInt] without a radix, times 1000. *)
Theorem onload_sets_one_timer (default : string) (w : World) :
  onload default w
  = (Return tt,
     mkWorld (settings w) (heap w) (daily w)
       ((if JS.isPositive (JS.parseInt (writeInterval (settings w)))
         then [SetInterval (JS.times (JS.parseInt (writeInterval (settings w))) 1000)]
         else [SetInterval (JS.times (JS.parseIntNoRadix default) 1000);
               ShowNotice ("[Obsidian List Modified] "
                           +:+ "Invalid write interval. Defaulting to "
                           +:+ default +:+ " seconds.")])
        ++ calls w)).
Proof.
  destruct (schemaParse (writeInterval (settings w))) as [n|] eqn:E.
  - rewrite (onload_valid_interval default w n E).
    apply schemaParse_Some in E as [-> Hpos]. now rewrite Hpos.
  - rewrite (onload_invalid_interval default w E).
    unfold schemaParse in E.
    now destruct (JS.isPositive (JS.parseInt (writeInterval (settings w)))).
Qed.

(** ** The document that is written *)

(** X17: with the daily note resolved, the configured heading found in it and
    every tracked path naming a file, [updateTrackedFiles] returns after
    exactly one document write, to the daily note: its lines, with the
    managed region replaced by one rendered entry per tracked path in the
    order of the tracked set, joined by line feeds. *)
Theorem render_writes_one_entry_per_path (host : Host) (w : World) (note : TFile)
    (hs : list HeadingCache) :
  resolvedNote host w = Some note ->
  headings (getFileCache host note) = Some hs ->
  heading (settings w) <> EmptyString ->
  (exists h, h ∈ hs /\ heading_text h = heading (settings w)) ->
  Forall (fun p => is_Some (getAbstractFileByPath host p)) (tracked w) ->
  exists w' entries out,
    updateTrackedFiles host w = (Return tt, w')
    /\ Forall2 (fun p entry => (getFormattedOutput host p w').1 = Return entry)
         (tracked w) entries
    /\ spliceManagedRegion (JS.split newline (vaultRead host note)) hs (heading (settings w))
         entries = Some out
    /\ writes (calls w')
       = (path note, JS.join (String newline EmptyString) out) :: writes (calls w).
Proof. apply updateTrackedFiles_writes_spliced. Qed.

Lemma render_writes_one_entry_per_path_witness :
  exists w' entries out,
    updateTrackedFiles Demo.host Demo.twoNotesWorld = (Return tt, w')
    /\ Forall2 (fun p entry => (getFormattedOutput Demo.host p w').1 = Return entry)
         (tracked Demo.twoNotesWorld) entries
    /\ spliceManagedRegion (JS.split newline (vaultRead Demo.host Demo.today))
         Demo.todayHeadings (heading (settings Demo.twoNotesWorld)) entries = Some out
    /\ writes (calls w')
       = (path Demo.today, JS.join (String newline EmptyString) out)
         :: writes (calls Demo.twoNotesWorld).
Proof.
  apply (render_writes_one_entry_per_path Demo.host Demo.twoNotesWorld Demo.today
           Demo.todayHeadings eq_refl eq_refl).
  - discriminate.
  - exists (mkHeading "Modified" 0 0). split; [left | reflexivity].
  - repeat constructor; eexists; reflexivity.
Defined.

(** Splitting at a separator and joining with it gives the text back. *)
Lemma concat_cons_String (sep : string) (c : ascii) (x : string) (xs : list string) :
  String.concat sep (String c x :: xs) = String c (String.concat sep (x :: xs)).
Proof. destruct xs; reflexivity. Qed.

Lemma join_split (sep : ascii) (s : string) :
  JS.join (String sep EmptyString) (JS.split sep s) = s.
Proof.
  unfold JS.join. induction s as [|c s IH]; [reflexivity|]. simpl.
  pose proof (split_nonempty sep s) as Hne.
  destruct (Ascii.eqb_spec c sep) as [->|Hc].
  - destruct (JS.split sep s) as [|x xs]; [contradiction|].
    change (String.concat (String sep EmptyString) (EmptyString :: x :: xs))
      with (String sep (String.concat (String sep EmptyString) (x :: xs))).
    now rewrite IH.
  - destruct (JS.split sep s) as [|x xs]; [contradiction|].
    now rewrite concat_cons_String, IH.
Qed.

(** X18: a render that has nothing to insert and nothing to delete writes the
    document back as it was read: the tracked set is empty, and the next
    heading starts on the line after the configured heading or on the one
    after that. *)
Theorem empty_render_writes_document_back (host : Host) (w : World) (note : TFile)
    (pre post : list HeadingCache) (h next : HeadingCache) :
  resolvedNote host w = Some note ->
  headings (getFileCache host note) = Some (pre ++ h :: next :: post) ->
  heading (settings w) <> EmptyString ->
  Forall (fun x => heading_text x <> heading (settings w)) pre ->
  heading_text h = heading (settings w) ->
  (0 <= end_line h < Z.of_nat (length (JS.split newline (vaultRead host note))))%Z ->
  (end_line h < start_line next <= end_line h + 2)%Z ->
  tracked w = [] ->
  exists w',
    updateTrackedFiles host w = (Return tt, w')
    /\ writes (calls w') = (path note, vaultRead host note) :: writes (calls w).
Proof.
  intros Hnote Hhs Hne Hpre Hh He Hn Hempty.
  assert (Hmatch : exists x, x ∈ pre ++ h :: next :: post
                             /\ heading_text x = heading (settings w)).
  { exists h. split; [|exact Hh]. apply elem_of_app. right. left. }
  assert (Hall : Forall (fun p => is_Some (getAbstractFileByPath host p)) (tracked w)).
  { rewrite Hempty. constructor. }
  destruct (updateTrackedFiles_writes_spliced host w note _ Hnote Hhs Hne Hmatch Hall)
    as (w' & entries & out & Hrun & Hent & Hout & Hw).
  rewrite Hempty in Hent. apply Forall2_nil_inv_l in Hent. subst entries.
  exists w'. split; [exact Hrun|]. rewrite Hw. do 2 f_equal.
  unfold spliceManagedRegion in Hout.
  rewrite findManagedRegion_skip in Hout by exact Hpre. simpl in Hout.
  rewrite (proj2 (String.eqb_eq _ _) Hh) in Hout. injection Hout as <-.
  rewrite splice_in_range by lia.
  rewrite Z.max_r, Z.min_l by lia. simpl. rewrite Nat.add_0_r, take_drop.
  apply join_split.
Qed.

Lemma empty_render_writes_document_back_witness :
  exists w',
    updateTrackedFiles Demo.host (Demo.world "2024-01-02" "- [[link]]" "draft" [])
    = (Return tt, w')
    /\ writes (calls w') = [(path Demo.today, vaultRead Demo.host Demo.today)].
Proof.
  apply (empty_render_writes_document_back Demo.host
           (Demo.world "2024-01-02" "- [[link]]" "draft" []) Demo.today
           [] [] (mkHeading "Modified" 0 0) (mkHeading "Next" 2 2) eq_refl eq_refl).
  - discriminate.
  - constructor.
  - reflexivity.
  - simpl. lia.
  - simpl. lia.
  - reflexivity.
Defined.

(** ** The filter on the title, one entry *)

Lemma lowerChar_idem (c : ascii) : JS.lowerChar (JS.lowerChar c) = JS.lowerChar c.
Proof. destruct c as [[] [] [] [] [] [] [] []]; reflexivity. Qed.

Lemma toLowerCase_idem (s : string) : JS.toLowerCase (JS.toLowerCase s) = JS.toLowerCase s.
Proof.
  induction s as [|c s IH]; [reflexivity|]. simpl. now rewrite lowerChar_idem, IH.
Qed.

(** X19: when the setting [ignoredNameContains] has no comma, it is one
    ignored text: a title counts as ignored exactly when, in lower case, it
    contains the setting with its white space deleted, in lower case.  The
    letter case of the title does not matter. *)
Theorem single_ignored_text_is_a_substring (s : Settings) (title : string) :
  JS.includes (ignoredNameContains s) "," = false ->
  noteTitleContainsIgnoredText s title
  = JS.includes (JS.toLowerCase title)
      (JS.toLowerCase (JS.removeWhiteSpace (ignoredNameContains s)))
  /\ noteTitleContainsIgnoredText s (JS.toLowerCase title)
     = noteTitleContainsIgnoredText s title.
Proof.
  intros H. split.
  - unfold noteTitleContainsIgnoredText. rewrite split_no_sep.
    + simpl. apply orb_false_r.
    + intros a b Hab. apply removeWhiteSpace_occurs in Hab as (a' & b' & Hab).
      rewrite includes_comma_false in H. now destruct (H a' b').
  - unfold noteTitleContainsIgnoredText. now rewrite toLowerCase_idem.
Qed.

Lemma single_ignored_text_is_a_substring_witness :
  noteTitleContainsIgnoredText Demo.filtered "My DRAFT note"
  = JS.includes "my draft note" "draft".
Proof.
  destruct (single_ignored_text_is_a_substring Demo.filtered "My DRAFT note" eq_refl)
    as [H _].
  exact H.
Defined.

(** ** How the handlers compose *)

Lemma remove_app (l1 l2 : list string) (x : string) :
  JS.remove (l1 ++ l2) x = JS.remove l1 x ++ JS.remove l2 x.
Proof. apply List.filter_app. Qed.

Lemma remove_single (x : string) : JS.remove [x] x = [].
Proof. unfold JS.remove. simpl. now rewrite String.eqb_refl. Qed.

Lemma remove_remove_absent (l : list string) (x y : string) :
  y ∉ l -> JS.remove (JS.remove l x) y = JS.remove l x.
Proof. intros H. apply remove_absent. rewrite remove_elem_of. tauto. Qed.

(** X20: renaming a tracked file to a path that is not tracked and back again
    leaves the same paths tracked, with the path of the file moved to the
    end: the place it had in the order is lost. *)
Theorem rename_there_and_back (host host' : Host) (f f' : TFile) (w : World) :
  path f ∈ tracked w ->
  path f' ∉ tracked w ->
  tracked (onVaultRename host' (AFile f) (path f')
             (onVaultRename host (AFile f') (path f) w).2).2
  = JS.remove (tracked w) (path f) ++ [path f]
  /\ forall q, q ∈ tracked (onVaultRename host' (AFile f) (path f')
                              (onVaultRename host (AFile f') (path f) w).2).2
               <-> q ∈ tracked w.
Proof.
  intros Hin Hnin.
  destruct (onVaultRename_tracked host f' (path f) w) as (H1 & _ & _).
  rewrite (proj2 (arrIncludes_true _ _) Hin) in H1.
  destruct (onVaultRename_tracked host' f (path f')
              (onVaultRename host (AFile f') (path f) w).2) as (H2 & _ & _).
  assert (Hin' : path f' ∈ tracked (onVaultRename host (AFile f') (path f) w).2).
  { rewrite H1. unfold JS.push. apply elem_of_app. right. left. }
  rewrite (proj2 (arrIncludes_true _ _) Hin') in H2. rewrite H2, H1. unfold JS.push.
  rewrite remove_app, remove_single, app_nil_r, remove_remove_absent by exact Hnin.
  split; [reflexivity|].
  intros q. rewrite elem_of_app, remove_elem_of, list_elem_of_singleton.
  destruct (String.eqb_spec q (path f)) as [->|Hq]; tauto.
Qed.

Lemma rename_there_and_back_witness :
  tracked (onVaultRename Demo.host (AFile Demo.noteA) (path Demo.archived)
             (onVaultRename Demo.host (AFile Demo.archived) (path Demo.noteA)
                Demo.twoNotesWorld).2).2
  = ["Notes/B.md"; "Notes/A.md"].
Proof.
  assert (Hin : path Demo.noteA ∈ tracked Demo.twoNotesWorld) by left.
  assert (Hnin : path Demo.archived ∉ tracked Demo.twoNotesWorld).
  { apply arrIncludes_false. reflexivity. }
  destruct (rename_there_and_back Demo.host Demo.host Demo.noteA Demo.archived
              Demo.twoNotesWorld Hin Hnin) as [H _].
  exact H.
Defined.

(** The tracked set after the change of a file that no filter rejects. *)
Lemma onCacheChange_accepted (host : Host) (file : TFile) (cache : CachedMetadata)
    (w : World) :
  wf w ->
  lastTrackedDate (settings w) = currentDate host ->
  lookupLetsPass w file ->
  cacheContainsIgnoredTag (settings w) cache = false ->
  noteTitleContainsIgnoredText (settings w) (basename file) = false ->
  (pathIsExcluded host (settings w) (path file) w).1 = Return false ->
  tracked (onCacheChange host file cache w).2
  = (if JS.arrIncludes (tracked w) (path file) then tracked w
     else JS.push (tracked w) (path file))
  /\ (settings (onCacheChange host file cache w).2 = settings w
      \/ settings (onCacheChange host file cache w).2
         = set_hasBeenBackedUp true (settings w)).
Proof.
  intros Hwf Edate Hruns Htag Htitle Hex. unfold wf in Hwf.
  rewrite (onCacheChange_same_day host file cache w Edate Hruns).
  rewrite (updateMembership_accepts host _ file cache w Hwf Htag Htitle Hex).
  match goal with |- context [updateTrackedFiles host ?w0] =>
    destruct (updateTrackedFiles_tracked host w0) as (-> & _ & _);
    destruct (updateTrackedFiles_prelude host w0) as (w3 & Hrun & _ & Hs & _)
  end.
  split.
  - unfold tracked at 1. simpl. now rewrite deref_insert by exact Hwf.
  - rewrite Hrun. simpl in Hs.
    assert (Hs3 : settings w3 = settings w \/ settings w3 = set_hasBeenBackedUp true (settings w)).
    { rewrite Hs. destruct (backupCalls _ _); auto. }
    destruct (resolvedNote _ _) as [note|]; simpl; [|exact Hs3].
    now destruct (renderInto_calls host note w3) as (cs & -> & _).
Qed.

(** X21: a file that is not tracked, is changed (no filter rejects it) and is
    then deleted leaves the tracked set as it was before the change. *)
Theorem change_then_delete_restores_set
    (host host' : Host) (file : TFile) (cache : CachedMetadata) (w : World) :
  wf w ->
  lastTrackedDate (settings w) = currentDate host ->
  membershipUpdateRuns host w file ->
  cacheContainsIgnoredTag (settings w) cache = false ->
  noteTitleContainsIgnoredText (settings w) (basename file) = false ->
  (pathIsExcluded host (settings w) (path file) w).1 = Return false ->
  path file ∉ tracked w ->
  tracked (onVaultDelete host' (AFile file) (onCacheChange host file cache w).2).2
  = tracked w.
Proof.
  intros Hwf Edate Hruns Htag Htitle Hex Hnin.
  destruct (onVaultDelete_tracked host' file (onCacheChange host file cache w).2)
    as (-> & _ & _).
  destruct (onCacheChange_accepted host file cache w Hwf Edate (proj1 Hruns) Htag Htitle Hex)
    as [-> _].
  rewrite (proj2 (arrIncludes_false _ _) Hnin). unfold JS.push.
  now rewrite remove_app, remove_single, app_nil_r, remove_absent.
Qed.

Lemma change_then_delete_restores_set_witness :
  tracked (onVaultDelete Demo.host (AFile Demo.archived)
             (onCacheChange Demo.host Demo.archived Demo.workCache Demo.twoNotesWorld).2).2
  = tracked Demo.twoNotesWorld.
Proof.
  assert (Hwf : wf Demo.twoNotesWorld) by (unfold wf; simpl; lia).
  assert (Hruns : membershipUpdateRuns Demo.host Demo.twoNotesWorld Demo.archived).
  { split; [discriminate | now exists Demo.archived]. }
  assert (Hnin : path Demo.archived ∉ tracked Demo.twoNotesWorld).
  { apply arrIncludes_false. reflexivity. }
  exact (change_then_delete_restores_set Demo.host Demo.host Demo.archived Demo.workCache
           Demo.twoNotesWorld Hwf eq_refl Hruns eq_refl eq_refl eq_refl Hnin).
Defined.

(** X22: on the day of the stored date, when the lookup of the daily note
    does not throw and the changed file is not the note it finds, a file
    that no filter rejects (no ignored tag, [pathIsExcluded] returns false,
    title not ignored), changed twice in a row with the same host, is in the
    tracked set after the first change, and the second change leaves the
    tracked set as the first one left it. *)
Theorem second_change_changes_nothing
    (host : Host) (file : TFile) (cache : CachedMetadata) (w : World) :
  wf w ->
  lastTrackedDate (settings w) = currentDate host ->
  lookupLetsPass w file ->
  cacheContainsIgnoredTag (settings w) cache = false ->
  noteTitleContainsIgnoredText (settings w) (basename file) = false ->
  (pathIsExcluded host (settings w) (path file) w).1 = Return false ->
  path file ∈ tracked (onCacheChange host file cache w).2
  /\ tracked (onCacheChange host file cache (onCacheChange host file cache w).2).2
     = tracked (onCacheChange host file cache w).2.
Proof.
  intros Hwf Edate Hruns Htag Htitle Hex.
  destruct (onCacheChange_accepted host file cache w Hwf Edate Hruns Htag Htitle Hex)
    as [Ht Hs].
  destruct (onCacheChange_tracked host file cache w Hwf) as (Hwf1 & _).
  set (w1 := (onCacheChange host file cache w).2) in *.
  assert (Hin : path file ∈ tracked w1).
  { rewrite Ht. destruct (JS.arrIncludes (tracked w) (path file)) eqn:E.
    - now apply arrIncludes_true.
    - unfold JS.push. apply elem_of_app. right. left. }
  split; [exact Hin|].
  assert (Hdate1 : lastTrackedDate (settings w1) = currentDate host).
  { destruct Hs as [->| ->]; exact Edate. }
  assert (Htag1 : cacheContainsIgnoredTag (settings w1) cache = false).
  { destruct Hs as [->| ->]; exact Htag. }
  assert (Htitle1 : noteTitleContainsIgnoredText (settings w1) (basename file) = false).
  { destruct Hs as [->| ->]; exact Htitle. }
  assert (Hex1 : (pathIsExcluded host (settings w1) (path file) w1).1 = Return false).
  { destruct (pathIsExcluded_run host (settings w) (path file)) as (o & Ho & _).
    rewrite Ho in Hex. simpl in Hex. subst o.
    destruct Hs as [->| ->].
    - now rewrite Ho.
    - change (pathIsExcluded host (set_hasBeenBackedUp true (settings w)) (path file))
        with (pathIsExcluded host (settings w) (path file)).
      now rewrite Ho. }
  rewrite onCacheChange_steps, rollover_run.
  rewrite (proj2 (String.eqb_eq _ _) Hdate1). simpl.
  assert (Hupd : tracked
                   match updateMembership host (trackedFiles (settings w1)) file cache w1 with
                   | (Return _, w2) => updateTrackedFiles host w2
                   | (Throw e, w2) => (Throw e, w2)
                   end.2 = tracked w1).
  { rewrite (updateMembership_accepts host _ file cache w1 Hwf1 Htag1 Htitle1 Hex1).
    match goal with |- context [updateTrackedFiles host ?w0] =>
      destruct (updateTrackedFiles_tracked host w0) as (-> & _ & _)
    end.
    unfold tracked at 1. simpl. rewrite deref_insert by exact Hwf1.
    fold (tracked w1). now rewrite (proj2 (arrIncludes_true _ _) Hin). }
  destruct (daily w1) as [note| |message]; simpl; [| exact Hupd | reflexivity].
  destruct (String.eqb (path file) (path note)); [reflexivity | exact Hupd].
Qed.

Lemma second_change_changes_nothing_witness :
  path Demo.archived
    ∈ tracked (onCacheChange Demo.host Demo.archived Demo.workCache Demo.twoNotesWorld).2
  /\ tracked (onCacheChange Demo.host Demo.archived Demo.workCache
                (onCacheChange Demo.host Demo.archived Demo.workCache Demo.twoNotesWorld).2).2
     = tracked (onCacheChange Demo.host Demo.archived Demo.workCache Demo.twoNotesWorld).2.
Proof.
  assert (Hwf : wf Demo.twoNotesWorld) by (unfold wf; simpl; lia).
  assert (Hruns : lookupLetsPass Demo.twoNotesWorld Demo.archived) by discriminate.
  exact (second_change_changes_nothing Demo.host Demo.archived Demo.workCache
           Demo.twoNotesWorld Hwf eq_refl Hruns eq_refl eq_refl eq_refl).
Defined.
